(** * Task-Ezy: the task list and the dashboard, as the components run them

    A shallow embedding of two React components,

    - [src/app/_components/TasksList.tsx] ([TasksComponent]), and
    - the dashboard page ([Dashboard]) with its creation form,

    and the properties of their state machines.  Handlers are written in a
    small state-and-exception monad over the component's state and an event
    log (requests issued, [console.error] calls, toasts shown); the network
    is an oracle that answers each request from the requests seen so far.
    A handler runs to its end before the next one starts.  The two timers
    (the toast's expiry and the dashboard's clock) and the markup are left
    out: no property below depends on them. *)

From Stdlib Require Import List ZArith NArith Bool Lia String Ascii.
From Stdlib Require Import DecimalString Permutation Sorted RelationClasses.
Import ListNotations.
Local Open Scope Z_scope.

(* ================================================================= *)
(** ** The JavaScript values the components compute with *)

Module Js.

(** A JavaScript string is a sequence of UTF-16 code units. *)
Definition jsstring := list N.

Definition lit (s : string) : jsstring :=
  map N_of_ascii (list_ascii_of_string s).

Definition eqb (s t : jsstring) : bool :=
  if list_eq_dec N.eq_dec s t then true else false.

(** [Array.prototype.includes] on an array of strings. *)
Definition includes (l : list jsstring) (s : jsstring) : bool :=
  existsb (eqb s) l.

(** The code units [String.prototype.trim] strips: ECMAScript's WhiteSpace
    and LineTerminator productions. *)
Definition isWhiteSpace (c : N) : bool :=
  ((9 <=? c) && (c <=? 13) || (c =? 32) || (c =? 160) || (c =? 5760)
   || (8192 <=? c) && (c <=? 8202) || (c =? 8232) || (c =? 8233)
   || (c =? 8239) || (c =? 8287) || (c =? 12288) || (c =? 65279))%N.

Fixpoint trimStart (s : jsstring) : jsstring :=
  match s with
  | c :: s' => if isWhiteSpace c then trimStart s' else s
  | [] => []
  end.

Definition trimEnd (s : jsstring) : jsstring := rev (trimStart (rev s)).

Definition trim (s : jsstring) : jsstring := trimEnd (trimStart s).

(** Truthiness of a string: only the empty string is falsy. *)
Definition truthy (s : jsstring) : bool :=
  match s with [] => false | _ :: _ => true end.

(** Truthiness of a [string | null] field. *)
Definition truthy_opt (s : option jsstring) : bool :=
  match s with None => false | Some s => truthy s end.

(** A [string | null] field when it is truthy. *)
Definition present (s : option jsstring) : option jsstring :=
  match s with
  | Some s => if truthy s then Some s else None
  | None => None
  end.

(** [a || b] on strings. *)
Definition or_else (a : option jsstring) (b : jsstring) : jsstring :=
  match a with
  | Some s => if truthy s then s else b
  | None => b
  end.

(** The numbers that arise here are time values and small integers, or NaN:
    [None] is NaN.  A time value is an integer of magnitude at most
    8.64e15, so the floating-point difference of two of them has the sign
    of the exact difference and is zero only for equal times; the model
    keeps the exact difference. *)
Definition number := option Z.

Definition sub (x y : number) : number :=
  match x, y with
  | Some a, Some b => Some (a - b)
  | _, _ => None
  end.

(** A count interpolated in a template literal prints in decimal. *)
Definition toString (n : nat) : jsstring :=
  lit (NilZero.string_of_uint (Nat.to_uint n)).

(** [Array.prototype.sort(comparefn)].  A comparator result that is NaN counts
    as [+0] (SortCompare); the sort is stable, so for a consistent comparator
    the result is the one a stable insertion sort gives. *)
Section Sort.
Context {A : Type} (comparefn : A -> A -> number).

Definition sortCompare (x y : A) : Z :=
  match comparefn x y with Some v => v | None => 0 end.

Fixpoint insert (x : A) (l : list A) : list A :=
  match l with
  | [] => [x]
  | y :: l' => if sortCompare x y <=? 0 then x :: l else y :: insert x l'
  end.

Definition sort (l : list A) : list A := fold_right insert [] l.
End Sort.

(** The property names every object literal inherits from [Object.prototype]:
    a lookup [obj[key]] with one of these keys finds a function (or, for
    [__proto__], the prototype object) even when [obj] has no such key of its
    own. *)
Definition Object_prototype_keys : list jsstring :=
  map lit [ "constructor"; "hasOwnProperty"; "isPrototypeOf";
            "propertyIsEnumerable"; "toLocaleString"; "toString"; "valueOf";
            "__proto__"; "__defineGetter__"; "__defineSetter__";
            "__lookupGetter__"; "__lookupSetter__" ]%string.

(** What a property lookup on a literal with numeric values can find. *)
Inductive property :=
| own (n : Z)        (* the literal's own entry *)
| inherited          (* a function or object from Object.prototype *)
| undefined.

(** [v || 0] followed by the numeric conversion the subtraction applies:
    a function or object converts to NaN. *)
Definition or_zero_to_number (v : property) : number :=
  match v with
  | own n => Some n      (* [0 || 0] is [0] *)
  | undefined => Some 0
  | inherited => None
  end.

End Js.

Import Js.

(* ================================================================= *)
(** ** Requests, replies and the handlers' monad *)

Module Net.

(** A request as the components build it: the URL, and for a creation the
    fields of the JSON body in the order they are written. *)
Inductive Request :=
| GET (url : jsstring)
| DELETE (url : jsstring)
| POST (url : jsstring) (body : list (string * jsstring)).

(** The reply to a request: the transport fails ([fetch] rejects), or a
    response arrives with its [ok] flag and a body; [json = None] is a body
    that [response.json()] cannot parse. *)
Record Response (B : Type) := mkResponse { ok : bool; json : option B }.
Arguments mkResponse {B}.
Arguments ok {B}.
Arguments json {B}.

Inductive Reply (B : Type) :=
| NetworkError
| Responds (r : Response B).
Arguments NetworkError {B}.
Arguments Responds {B}.

(** The network answers a request knowing the requests made before it. *)
Definition Oracle (B : Type) := list Request -> Request -> Reply B.

Inductive Exn :=
| FetchRejected                 (* the TypeError of a failed transport *)
| JsonRejected                  (* response.json() on an unparsable body *)
| NullProperty                  (* a property read on null *)
| Error (message : jsstring).   (* [throw new Error(message)] *)

Inductive ToastType := success | error.

Record Toast := mkToast { message : jsstring; type : ToastType }.

Inductive Event :=
| Requested (r : Request)
| ConsoleError (label : jsstring) (e : option Exn)
| Toasted (t : Toast).

Definition requests (log : list Event) : list Request :=
  flat_map (fun e => match e with Requested r => [r] | _ => [] end) log.

Definition toasts (log : list Event) : list Toast :=
  flat_map (fun e => match e with Toasted t => [t] | _ => [] end) log.

Definition console_errors (log : list Event) : list (jsstring * option Exn) :=
  flat_map (fun e => match e with ConsoleError l x => [(l, x)] | _ => [] end) log.

(** The component's state together with everything it has done so far, in
    the order it happened. *)
Record World (S : Type) := mkWorld { state : S; log : list Event }.
Arguments mkWorld {S}.
Arguments state {S}.
Arguments log {S}.

Inductive Result (A : Type) :=
| Ret (a : A)
| Throw (e : Exn).
Arguments Ret {A}.
Arguments Throw {A}.

(** A handler: it may update the state, extend the log, and end normally or
    with an exception; what it did before throwing stays done. *)
Definition M (S A : Type) := World S -> Result A * World S.

Definition ret {S A} (a : A) : M S A := fun w => (Ret a, w).

Definition bind {S A B} (m : M S A) (k : A -> M S B) : M S B :=
  fun w => match m w with
           | (Ret a, w') => k a w'
           | (Throw e, w') => (Throw e, w')
           end.

Definition throw {S A} (e : Exn) : M S A := fun w => (Throw e, w).

Definition try_catch {S A} (body : M S A) (handler : Exn -> M S A) : M S A :=
  fun w => match body w with
           | (Ret a, w') => (Ret a, w')
           | (Throw e, w') => handler e w'
           end.

Definition get {S} : M S S := fun w => (Ret (state w), w).

Definition modify {S} (f : S -> S) : M S unit :=
  fun w => (Ret tt, mkWorld (f (state w)) (log w)).

Definition emit {S} (e : Event) : M S unit :=
  fun w => (Ret tt, mkWorld (state w) (log w ++ [e])).

(** A call to an async function that is not awaited: the caller goes on
    whatever becomes of the promise. *)
Definition unawaited {S A} (m : M S A) : M S unit :=
  fun w => (Ret tt, snd (m w)).

(** [await fetch(...)]: the request goes out, the network answers. *)
Definition fetch {S B} (net : Oracle B) (r : Request) : M S (Response B) :=
  fun w =>
    let w' := mkWorld (state w) (log w ++ [Requested r]) in
    match net (requests (log w)) r with
    | NetworkError => (Throw FetchRejected, w')
    | Responds resp => (Ret resp, w')
    end.

(** [await response.json()]. *)
Definition response_json {S B} (resp : Response B) : M S B :=
  match json resp with
  | Some b => ret b
  | None => throw JsonRejected
  end.

Definition console_error {S} (label : jsstring) (e : option Exn) : M S unit :=
  emit (ConsoleError label e).

Definition when {S} (b : bool) (m : M S unit) : M S unit :=
  if b then m else ret tt.

(** The world a handler leaves, and how it ended. *)
Definition exec {S A} (m : M S A) (w : World S) : World S := snd (m w).
Definition outcome {S A} (m : M S A) (w : World S) : Result A := fst (m w).

Definition returns {S A} (m : M S A) (w : World S) : Prop :=
  exists a, outcome m w = Ret a.

End Net.

Import Net.

Declare Scope handler_scope.
Delimit Scope handler_scope with handler.
Notation "x <- m ;; k" := (bind m (fun x => k))
  (at level 61, m at next level, right associativity) : handler_scope.
Notation "m ;; k" := (bind m (fun _ => k))
  (at level 61, right associativity) : handler_scope.
Local Open Scope handler_scope.

(* ================================================================= *)
(** ** The Task Collection View: [TasksComponent] of TasksList.tsx *)

Module TasksList.

Record Task := mkTask {
  id : jsstring;
  title : jsstring;
  dueDate : option jsstring;
  priority : option jsstring;   (* "Low" | "Medium" | "High" | null *)
  createdAt : jsstring;
  updatedAt : jsstring
}.

Inductive SortOption :=
| byDueDate | byPriority | byCreatedAt | byUpdatedAt | byTitle.

Definition SortOption_eqb (x y : SortOption) : bool :=
  match x, y with
  | byDueDate, byDueDate | byPriority, byPriority
  | byCreatedAt, byCreatedAt | byUpdatedAt, byUpdatedAt
  | byTitle, byTitle => true
  | _, _ => false
  end.

Inductive ViewMode := grid | list_view.

(** The eight [useState] cells.  [originalOrderRef] stands for the identity
    of the array that [originalOrder] holds: the effect's dependency list
    compares arrays by reference, and every [setOriginalOrder(data)] stores
    a fresh one. *)
Record State := mkState {
  tasks : list Task;
  viewMode : ViewMode;
  selectedTasks : list jsstring;
  isDeleteModalOpen : bool;
  tasksToDelete : list jsstring;
  toast : option Toast;
  currentSort : option SortOption;
  originalOrder : list Task;
  originalOrderRef : nat
}.

Definition setTasks (v : list Task) (s : State) : State :=
  mkState v (viewMode s) (selectedTasks s) (isDeleteModalOpen s)
          (tasksToDelete s) (toast s) (currentSort s) (originalOrder s)
          (originalOrderRef s).

Definition setViewMode (v : ViewMode) (s : State) : State :=
  mkState (tasks s) v (selectedTasks s) (isDeleteModalOpen s)
          (tasksToDelete s) (toast s) (currentSort s) (originalOrder s)
          (originalOrderRef s).

Definition setSelectedTasks (v : list jsstring) (s : State) : State :=
  mkState (tasks s) (viewMode s) v (isDeleteModalOpen s)
          (tasksToDelete s) (toast s) (currentSort s) (originalOrder s)
          (originalOrderRef s).

Definition setIsDeleteModalOpen (v : bool) (s : State) : State :=
  mkState (tasks s) (viewMode s) (selectedTasks s) v
          (tasksToDelete s) (toast s) (currentSort s) (originalOrder s)
          (originalOrderRef s).

Definition setTasksToDelete (v : list jsstring) (s : State) : State :=
  mkState (tasks s) (viewMode s) (selectedTasks s) (isDeleteModalOpen s)
          v (toast s) (currentSort s) (originalOrder s)
          (originalOrderRef s).

Definition setToast (v : option Toast) (s : State) : State :=
  mkState (tasks s) (viewMode s) (selectedTasks s) (isDeleteModalOpen s)
          (tasksToDelete s) v (currentSort s) (originalOrder s)
          (originalOrderRef s).

Definition setCurrentSort (v : option SortOption) (s : State) : State :=
  mkState (tasks s) (viewMode s) (selectedTasks s) (isDeleteModalOpen s)
          (tasksToDelete s) (toast s) v (originalOrder s)
          (originalOrderRef s).

Definition setOriginalOrder (v : list Task) (s : State) : State :=
  mkState (tasks s) (viewMode s) (selectedTasks s) (isDeleteModalOpen s)
          (tasksToDelete s) (toast s) (currentSort s) v
          (S (originalOrderRef s)).

(** [useState] initial values. *)
Definition initialState (initialTasks : list Task) : State :=
  mkState initialTasks list_view [] false [] None None [] 0.

(** The lookup [priorityOrder[p]] in
    [{ High: 3, Medium: 2, Low: 1, null: 0 }]: the key is the string the
    priority converts to, and a key the literal does not own is looked up
    along the prototype chain. *)
Definition priorityKey (p : option jsstring) : jsstring :=
  match p with Some s => s | None => lit "null" end.

Definition priorityOrder (key : jsstring) : Js.property :=
  if eqb key (lit "High") then own 3
  else if eqb key (lit "Medium") then own 2
  else if eqb key (lit "Low") then own 1
  else if eqb key (lit "null") then own 0
  else if includes Object_prototype_keys key then inherited
  else undefined.

(** [priorityOrder[t.priority] || 0], as the subtraction reads it. *)
Definition priorityRank (t : Task) : number :=
  or_zero_to_number (priorityOrder (priorityKey (priority t))).

Section Component.

(** [new Date(s).getTime()]: the time value in milliseconds, NaN for a
    string that is not a date. *)
Variable getTime : jsstring -> number.

(** [a.localeCompare(b)]: negative, zero or positive. *)
Variable localeCompare : jsstring -> jsstring -> Z.

(** The answers of [/api/tasks] (an array of task records when the body
    parses) and of [/api/tasks/{id}]. *)
Variable api_tasks : Oracle (list Task).
Variable api_task : Oracle unit.

(** The comparator of [sortTasks].  In the due-date case the first three
    tests are [!a.dueDate && !b.dueDate], [!a.dueDate] and [!b.dueDate]; the
    dates are parsed only when both fields are truthy. *)
Definition compareTasks (option : SortOption) (a b : Task) : number :=
  match option with
  | byDueDate =>
      match present (dueDate a), present (dueDate b) with
      | None, None => Some 0
      | None, Some _ => Some 1
      | Some _, None => Some (-1)
      | Some da, Some db => sub (getTime db) (getTime da)
      end
  | byPriority => sub (priorityRank b) (priorityRank a)
  | byCreatedAt => sub (getTime (createdAt b)) (getTime (createdAt a))
  | byUpdatedAt => sub (getTime (updatedAt b)) (getTime (updatedAt a))
  | byTitle => Some (localeCompare (title a) (title b))
  end.

Definition showToast (message : jsstring) (type : ToastType) : M State unit :=
  modify (setToast (Some (mkToast message type)));;
  emit (Toasted (mkToast message type)).

Definition url_tasks : jsstring := lit "/api/tasks".
Definition url_task (taskId : jsstring) : jsstring := lit "/api/tasks/" ++ taskId.

Definition fetchTasks : M State unit :=
  try_catch
    (response <- fetch api_tasks (GET url_tasks);;
     if negb (ok response) then throw (Error (lit "Failed to fetch tasks"))
     else
       data <- response_json response;;
       modify (setTasks data);;
       modify (setOriginalOrder data))
    (fun error =>
       console_error (lit "Error fetching tasks:") (Some error);;
       showToast (lit "Failed to fetch tasks") Net.error).

Definition toggleViewMode : M State unit :=
  s <- get;;
  modify (setViewMode (match viewMode s with grid => list_view | list_view => grid end)).

Definition toggleTaskSelection (taskId : jsstring) : M State unit :=
  modify (fun s =>
    setSelectedTasks
      (if includes (selectedTasks s) taskId
       then filter (fun id => negb (eqb id taskId)) (selectedTasks s)
       else selectedTasks s ++ [taskId]) s).

Definition selectAllTasks : M State unit :=
  s <- get;;
  modify (setSelectedTasks (map id (tasks s))).

Definition cancelSelection : M State unit :=
  modify (setSelectedTasks []).

Definition openDeleteModal : M State unit :=
  s <- get;;
  modify (setTasksToDelete (selectedTasks s));;
  modify (setIsDeleteModalOpen true).

Definition closeDeleteModal : M State unit :=
  modify (setIsDeleteModalOpen false);;
  modify (setTasksToDelete []).

(** One turn of the loop of [deleteSelectedTasks], on the two counters. *)
Definition deleteOne (taskId : jsstring) (counts : nat * nat) : M State (nat * nat) :=
  try_catch
    (response <- fetch api_task (DELETE (url_task taskId));;
     if negb (ok response)
     then throw (Error (lit "Failed to delete task " ++ taskId))
     else ret (S (fst counts), snd counts))
    (fun error =>
       console_error (lit "Error deleting task " ++ taskId ++ lit ":") (Some error);;
       ret (fst counts, S (snd counts))).

Fixpoint deleteEach (ids : list jsstring) (counts : nat * nat) : M State (nat * nat) :=
  match ids with
  | [] => ret counts
  | taskId :: rest => counts' <- deleteOne taskId counts;; deleteEach rest counts'
  end.

Definition deleteSelectedTasks : M State unit :=
  s <- get;;
  counts <- deleteEach (tasksToDelete s) (0, 0)%nat;;
  let successCount := fst counts in
  let errorCount := snd counts in
  when (0 <? successCount)%nat
    (showToast (lit "Successfully deleted " ++ toString successCount ++ lit " task(s)")
               success);;
  when (0 <? errorCount)%nat
    (showToast (lit "Failed to delete " ++ toString errorCount ++ lit " task(s)")
               Net.error);;
  unawaited fetchTasks;;
  modify (setSelectedTasks []);;
  closeDeleteModal.

Definition sortTasks (option : SortOption) : M State unit :=
  s <- get;;
  modify (setTasks (Js.sort (compareTasks option) (tasks s))).

Definition handleSortClick (option : SortOption) : M State unit :=
  s <- get;;
  match currentSort s with
  | Some current =>
      if SortOption_eqb current option
      then modify (setCurrentSort None)
      else modify (setCurrentSort (Some option))
  | None => modify (setCurrentSort (Some option))
  end.

Definition handleDeleteTask (taskId : jsstring) : M State unit :=
  try_catch
    (response <- fetch api_task (DELETE (url_task taskId));;
     if negb (ok response)
     then throw (Error (lit "Failed to delete task " ++ taskId))
     else
       showToast (lit "Task deleted successfully") success;;
       unawaited fetchTasks)
    (fun error =>
       console_error (lit "Error deleting task " ++ taskId ++ lit ":") (Some error);;
       showToast (lit "Failed to delete task") Net.error).

(** The effect on [[currentSort, originalOrder]]. *)
Definition sortEffect : M State unit :=
  s <- get;;
  match currentSort s with
  | Some option => sortTasks option
  | None => modify (setTasks (originalOrder s))
  end.

Definition sameSort (x y : option SortOption) : bool :=
  match x, y with
  | Some a, Some b => SortOption_eqb a b
  | None, None => true
  | _, _ => false
  end.

Definition depsChanged (before after : State) : bool :=
  negb (sameSort (currentSort before) (currentSort after))
  || negb (originalOrderRef before =? originalOrderRef after)%nat.

(** What the user and the runtime can make the component do. *)
Inductive Action :=
| ToggleViewMode
| ToggleTaskSelection (taskId : jsstring)
| SelectAllTasks
| CancelSelection
| OpenDeleteModal
| CloseDeleteModal
| DeleteSelectedTasks
| HandleSortClick (option : SortOption)
| HandleDeleteTask (taskId : jsstring)
| FetchTasks.

Definition handler (a : Action) : M State unit :=
  match a with
  | ToggleViewMode => toggleViewMode
  | ToggleTaskSelection taskId => toggleTaskSelection taskId
  | SelectAllTasks => selectAllTasks
  | CancelSelection => cancelSelection
  | OpenDeleteModal => openDeleteModal
  | CloseDeleteModal => closeDeleteModal
  | DeleteSelectedTasks => deleteSelectedTasks
  | HandleSortClick option => handleSortClick option
  | HandleDeleteTask taskId => handleDeleteTask taskId
  | FetchTasks => fetchTasks
  end.

(** A handler runs to its end, the component renders again, and the sort
    effect runs when one of its dependencies has changed. *)
Definition dispatch (h : M State unit) (w : World State) : World State :=
  let w' := exec h w in
  if depsChanged (state w) (state w') then exec sortEffect w' else w'.

Definition step (w : World State) (a : Action) : World State :=
  dispatch (handler a) w.

Definition run (w : World State) (actions : list Action) : World State :=
  fold_left step actions w.

(** Mounting: the first render shows [initialTasks]; then both effects run,
    the fetch and the sort effect (with no sort key and an empty
    [originalOrder]). *)
Definition mount (initialTasks : list Task) : World State :=
  dispatch fetchTasks (exec sortEffect (mkWorld (initialState initialTasks) [])).

(** The ids on display. *)
Definition displayed (s : State) : list jsstring := map id (tasks s).

(** Which controls the rendered page offers: a checkbox and a delete button
    per displayed task, the selection bar while something is selected, the
    modal's buttons while it is open. *)
Definition offered (s : State) (a : Action) : bool :=
  match a with
  | ToggleTaskSelection taskId | HandleDeleteTask taskId =>
      includes (displayed s) taskId
  | SelectAllTasks | CancelSelection | OpenDeleteModal =>
      negb (List.length (selectedTasks s) =? 0)%nat
  | CloseDeleteModal | DeleteSelectedTasks => isDeleteModalOpen s
  | ToggleViewMode | HandleSortClick _ => true
  | FetchTasks => false
  end.

End Component.

End TasksList.

(* ================================================================= *)
(** ** The Dashboard/Creation View: [Dashboard] *)

Module Dashboard.

Record Task := mkTask {
  task_id : jsstring;
  task_title : jsstring;
  task_createdAt : jsstring;
  task_dueDate : option jsstring;
  task_priority : option jsstring;
  task_status : jsstring;
  task_tags : option jsstring
}.

(** The body of a failed creation, as far as the handler reads it: JSON
    [null], or a value whose [message] property is absent or a string. *)
Inductive ErrorData :=
| json_null
| json_value (message : option jsstring).

Record State := mkState {
  taskTitle : jsstring;
  taskDescription : jsstring;
  dueDate : jsstring;
  priority : jsstring;
  status : jsstring;
  tags : jsstring;
  currentDateTime : jsstring;
  tasks : list Task;
  toast : option Toast
}.

Definition initialState : State :=
  mkState [] [] [] [] (lit "Not Started") [] [] [] None.

Definition setTaskTitle (v : jsstring) (s : State) : State :=
  mkState v (taskDescription s) (dueDate s) (priority s) (status s) (tags s)
          (currentDateTime s) (tasks s) (toast s).

Definition setTaskDescription (v : jsstring) (s : State) : State :=
  mkState (taskTitle s) v (dueDate s) (priority s) (status s) (tags s)
          (currentDateTime s) (tasks s) (toast s).

Definition setDueDate (v : jsstring) (s : State) : State :=
  mkState (taskTitle s) (taskDescription s) v (priority s) (status s) (tags s)
          (currentDateTime s) (tasks s) (toast s).

Definition setPriority (v : jsstring) (s : State) : State :=
  mkState (taskTitle s) (taskDescription s) (dueDate s) v (status s) (tags s)
          (currentDateTime s) (tasks s) (toast s).

Definition setStatus (v : jsstring) (s : State) : State :=
  mkState (taskTitle s) (taskDescription s) (dueDate s) (priority s) v (tags s)
          (currentDateTime s) (tasks s) (toast s).

Definition setTags (v : jsstring) (s : State) : State :=
  mkState (taskTitle s) (taskDescription s) (dueDate s) (priority s) (status s) v
          (currentDateTime s) (tasks s) (toast s).

Definition setCurrentDateTime (v : jsstring) (s : State) : State :=
  mkState (taskTitle s) (taskDescription s) (dueDate s) (priority s) (status s)
          (tags s) v (tasks s) (toast s).

Definition setTasks (v : list Task) (s : State) : State :=
  mkState (taskTitle s) (taskDescription s) (dueDate s) (priority s) (status s)
          (tags s) (currentDateTime s) v (toast s).

Definition setToast (v : option Toast) (s : State) : State :=
  mkState (taskTitle s) (taskDescription s) (dueDate s) (priority s) (status s)
          (tags s) (currentDateTime s) (tasks s) v.

(** The six fields of the form. *)
Record Form := mkForm {
  form_title : jsstring;
  form_description : jsstring;
  form_dueDate : jsstring;
  form_priority : jsstring;
  form_status : jsstring;
  form_tags : jsstring
}.

Definition form (s : State) : Form :=
  mkForm (taskTitle s) (taskDescription s) (dueDate s) (priority s) (status s)
         (tags s).

Definition defaults : Form := form initialState.

Section Component.

Variable api_tasks : Oracle (list Task).
Variable api_create : Oracle ErrorData.

Definition url_tasks : jsstring := lit "/api/tasks".

(** [setToast({ type, message })]: the toast the next render shows. *)
Definition showing (type : ToastType) (message : jsstring) : M State unit :=
  modify (setToast (Some (mkToast message type)));;
  emit (Toasted (mkToast message type)).

Definition fetchTasks : M State unit :=
  try_catch
    (response <- fetch api_tasks (GET url_tasks);;
     if ok response
     then data <- response_json response;; modify (setTasks data)
     else console_error (lit "Failed to fetch tasks") None)
    (fun error => console_error (lit "Error fetching tasks:") (Some error)).

Definition resetForm : M State unit :=
  modify (setTaskTitle []);;
  modify (setTaskDescription []);;
  modify (setDueDate []);;
  modify (setPriority []);;
  modify (setStatus (lit "Not Started"));;
  modify (setTags []).

(** [errorData.message]: reading a property of [null] throws. *)
Definition message_of (errorData : ErrorData) : M State (option jsstring) :=
  match errorData with
  | json_null => throw NullProperty
  | json_value m => ret m
  end.

(** The object handed to [JSON.stringify]. *)
Definition creation_body (s : State) : list (string * jsstring) :=
  [ ("title", trim (taskTitle s));
    ("description", trim (taskDescription s));
    ("dueDate", dueDate s);
    ("priority", priority s);
    ("status", status s);
    ("tags", trim (tags s)) ]%string.

Definition handleSubmit : M State unit :=
  s <- get;;
  if negb (truthy (trim (taskTitle s)))
  then showing Net.error (lit "Task title is required")
  else
    try_catch
      (response <- fetch api_create (POST url_tasks (creation_body s));;
       if ok response
       then
         resetForm;;
         showing success (lit "Task added successfully!");;
         unawaited fetchTasks
       else
         errorData <- response_json response;;
         m <- message_of errorData;;
         showing Net.error (or_else m (lit "Failed to add task")))
      (fun error =>
         console_error (lit "Error adding task:") (Some error);;
         showing Net.error (lit "Error adding task")).

End Component.

End Dashboard.

(* ================================================================= *)
(** ** The ordinal mapping, in the words of the specification *)

(** High=3, Medium=2, Low=1, none=0, and an unrecognized value in the
    absent bucket.  Compared below with [TasksList.priorityRank], which is
    what the comparator computes. *)
Definition spec_priority_ordinal (p : option jsstring) : Z :=
  match p with
  | None => 0
  | Some s =>
      if eqb s (lit "High") then 3
      else if eqb s (lit "Medium") then 2
      else if eqb s (lit "Low") then 1
      else 0
  end.

(** A priority whose key is found on [Object.prototype]. *)
Definition names_inherited_property (p : option jsstring) : bool :=
  includes Object_prototype_keys (TasksList.priorityKey p).

(** In a list, no task without a due date stands before a task with one. *)
Fixpoint dateless_last (l : list TasksList.Task) : bool :=
  match l with
  | [] => true
  | t :: l' =>
      (truthy_opt (TasksList.dueDate t)
       || forallb (fun u => negb (truthy_opt (TasksList.dueDate u))) l')
      && dateless_last l'
  end.

(** The same task with another due date. *)
Definition withDueDate (d : option jsstring) (t : TasksList.Task) : TasksList.Task :=
  TasksList.mkTask (TasksList.id t) (TasksList.title t) d (TasksList.priority t)
                   (TasksList.createdAt t) (TasksList.updatedAt t).

(** A task that has a due date, as the comparator reads the field. *)
Definition dated (t : TasksList.Task) : bool := truthy_opt (TasksList.dueDate t).

(** Concrete stand-ins for the runtime's date parser and collation, used
    where a statement is evaluated on sample data: two calendar dates with
    their time values (milliseconds since the epoch, UTC), every other
    string an invalid date; and comparison by code units. *)
Definition sample_getTime (s : jsstring) : number :=
  if eqb s (lit "2024-01-01") then Some 1704067200000
  else if eqb s (lit "2024-06-30") then Some 1719705600000
  else None.

Fixpoint sample_localeCompare (s t : jsstring) : Z :=
  match s, t with
  | [], [] => 0
  | [], _ :: _ => -1
  | _ :: _, [] => 1
  | c :: s', d :: t' =>
      if (c <? d)%N then -1 else if (d <? c)%N then 1 else sample_localeCompare s' t'
  end.

Definition sample_task (i t : string) (due prio : option string) : TasksList.Task :=
  TasksList.mkTask (lit i) (lit t) (option_map lit due) (option_map lit prio)
                   (lit "2024-01-01") (lit "2024-01-01").

(** Sample tasks. *)
Definition task_jan : TasksList.Task :=
  sample_task "1" "B" (Some "2024-01-01"%string) (Some "Low"%string).
Definition task_jun : TasksList.Task :=
  sample_task "2" "A" (Some "2024-06-30"%string) (Some "High"%string).
Definition task_undated : TasksList.Task :=
  sample_task "3" "C" None None.
Definition task_blank_date : TasksList.Task :=
  sample_task "4" "D" (Some EmptyString) (Some "Medium"%string).
Definition task_urgent : TasksList.Task :=
  sample_task "5" "E" None (Some "Urgent"%string).
Definition task_constructor : TasksList.Task :=
  sample_task "6" "F" None (Some "constructor"%string).

(* ================================================================= *)
(** ** What the network did, read off the oracle *)

(** Does the delete request for [taskId], made after [history], succeed? *)
Definition delete_succeeds (api_task : Oracle unit) (history : list Request)
    (taskId : jsstring) : bool :=
  match api_task history (DELETE (TasksList.url_task taskId)) with
  | Responds r => ok r
  | NetworkError => false
  end.

(** The delete requests for [ids], made one after the other. *)
Definition delete_requests (ids : list jsstring) : list Request :=
  map (fun taskId => DELETE (TasksList.url_task taskId)) ids.

(** How many of the delete requests for [ids], made in order after
    [history], succeed and how many fail. *)
Fixpoint tally (api_task : Oracle unit) (history : list Request)
    (ids : list jsstring) : nat * nat :=
  match ids with
  | [] => (0, 0)%nat
  | taskId :: rest =>
      let t := tally api_task (history ++ [DELETE (TasksList.url_task taskId)]) rest in
      if delete_succeeds api_task history taskId
      then (S (fst t), snd t)
      else (fst t, S (snd t))
  end.

(** Does a request for the collection, made after [history], fail: by the
    transport, by its status, or by a body that does not parse? *)
Definition fetch_fails {B} (api_tasks : Oracle B) (history : list Request) : bool :=
  match api_tasks history (GET TasksList.url_tasks) with
  | NetworkError => true
  | Responds r => negb (ok r) || match json r with Some _ => false | None => true end
  end.

(** The toasts of the Task Collection View, as the user reads them. *)
Definition deleted_toast (n : nat) : Toast :=
  mkToast (lit "Successfully deleted " ++ toString n ++ lit " task(s)") success.

Definition not_deleted_toast (n : nat) : Toast :=
  mkToast (lit "Failed to delete " ++ toString n ++ lit " task(s)") Net.error.

Definition fetch_failed_toast : Toast :=
  mkToast (lit "Failed to fetch tasks") Net.error.

(** A toast that is emitted only for a nonzero count. *)
Definition for_nonzero (n : nat) (t : nat -> Toast) : list Toast :=
  match n with O => [] | S _ => [t n] end.


(** What a handler that may re-fetch does to the lists: it leaves them, or
    it stores the fetched array in both. *)
Definition refreshed (before after : TasksList.State) : Prop :=
  TasksList.currentSort after = TasksList.currentSort before
  /\ ((TasksList.tasks after = TasksList.tasks before
       /\ TasksList.originalOrder after = TasksList.originalOrder before
       /\ TasksList.originalOrderRef after = TasksList.originalOrderRef before)
      \/ (TasksList.tasks after = TasksList.originalOrder after
          /\ TasksList.originalOrderRef after
             = S (TasksList.originalOrderRef before))).

(** The actions that neither open nor close the confirmation modal nor
    confirm it. *)
Definition keeps_modal (a : TasksList.Action) : bool :=
  match a with
  | TasksList.OpenDeleteModal | TasksList.CloseDeleteModal
  | TasksList.DeleteSelectedTasks => false
  | _ => true
  end.

(** Was the creation accepted?  And the message the service sent with a
    refusal, when it sent one that is not empty. *)
Definition created (reply : Reply Dashboard.ErrorData) : bool :=
  match reply with
  | Responds r => ok r
  | NetworkError => false
  end.

Definition server_message (reply : Reply Dashboard.ErrorData) : option jsstring :=
  match reply with
  | Responds r =>
      match json r with
      | Some (Dashboard.json_value (Some m)) => if truthy m then Some m else None
      | _ => None
      end
  | NetworkError => None
  end.

(** A network that is down, and a task service holding three tasks: it
    lists the tasks not yet deleted, and deletes a task once (a second
    delete of the same id, or a delete of an unknown id, is answered with a
    non-success status). *)
Definition offline {B} : Oracle B := fun _ _ => NetworkError.

Definition unavailable {B} : Oracle B :=
  fun _ _ => Responds (mkResponse false None).

Definition sample_db : list TasksList.Task := [task_jan; task_jun; task_undated].

Definition deleted_before (history : list Request) (taskId : jsstring) : bool :=
  existsb (fun r => match r with
                    | DELETE u => eqb u (TasksList.url_task taskId)
                    | _ => false
                    end) history.

Definition sample_api_tasks : Oracle (list TasksList.Task) :=
  fun history _ =>
    Responds (mkResponse true
      (Some (filter (fun t => negb (deleted_before history (TasksList.id t)))
                    sample_db))).

Definition sample_api_task : Oracle unit :=
  fun history r =>
    match r with
    | DELETE u =>
        Responds (mkResponse
          (existsb (fun t => eqb u (TasksList.url_task (TasksList.id t))
                             && negb (deleted_before history (TasksList.id t)))
                   sample_db)
          None)
    | _ => Responds (mkResponse false None)
    end.

(** The Task Collection View against that service: mounted, and driven by
    a list of actions. *)
Definition sample_mounted : World TasksList.State :=
  TasksList.mount sample_getTime sample_localeCompare sample_api_tasks [].

Definition sample_run (w : World TasksList.State) (actions : list TasksList.Action)
    : World TasksList.State :=
  TasksList.run sample_getTime sample_localeCompare sample_api_tasks
                sample_api_task w actions.

(** Is every selected id the id of a displayed task? *)
Definition selection_displayed (s : TasksList.State) : bool :=
  forallb (includes (TasksList.displayed s)) (TasksList.selectedTasks s).

(** The dashboard with a form filled in, and with a title of two spaces,
    a tab and an ideographic space; a service that accepts a creation, and
    one that refuses it with a message. *)
Definition dashboard_filled : World Dashboard.State :=
  mkWorld (Dashboard.mkState (lit "Buy milk") (lit " two litres ") (lit "2024-06-30")
             (lit "High") (lit "In Progress") (lit "home") [] [] None) [].

Definition dashboard_blank : World Dashboard.State :=
  mkWorld (Dashboard.setTaskTitle (lit "  " ++ [9%N; 12288%N]) (state dashboard_filled))
          [].

Definition accepting : Oracle Dashboard.ErrorData :=
  fun _ _ => Responds (mkResponse true None).

Definition refusing : Oracle Dashboard.ErrorData :=
  fun _ _ =>
    Responds (mkResponse false
                (Some (Dashboard.json_value (Some (lit "Title already used"))))).

(** The task list after one task was selected and then deleted with its own
    button, and after the two others were selected and the modal opened. *)
Definition sample_after_single_delete : World TasksList.State :=
  sample_run sample_mounted
    [TasksList.ToggleTaskSelection (lit "1"); TasksList.HandleDeleteTask (lit "1")].

Definition sample_confirming : World TasksList.State :=
  sample_run sample_after_single_delete
    [TasksList.ToggleTaskSelection (lit "2"); TasksList.ToggleTaskSelection (lit "3");
     TasksList.OpenDeleteModal].

(* ================================================================= *)
(** ** Sort keys, and the rest of the two components *)

(** [isValidDate] of TasksList.tsx: [!isNaN(new Date(dateString).getTime())]. *)
Definition isValidDate (getTime : jsstring -> number) (dateString : jsstring) : bool :=
  match getTime dateString with Some _ => true | None => false end.

(** The time value of a string that is a date. *)
Definition timeValue (getTime : jsstring -> number) (s : jsstring) : Z :=
  match getTime s with Some v => v | None => 0 end.

Definition dueTimeValue (getTime : jsstring -> number) (t : TasksList.Task) : Z :=
  match present (TasksList.dueDate t) with
  | Some d => timeValue getTime d
  | None => 0
  end.

(** Every due date that is there is a date. *)
Definition due_dates_valid (getTime : jsstring -> number)
    (l : list TasksList.Task) : bool :=
  forallb (fun t => match present (TasksList.dueDate t) with
                    | Some d => isValidDate getTime d
                    | None => true
                    end) l.




(** The order a collation must have for a sort by title to mean anything:
    of two strings, one does not come after the other. *)
Definition collates (localeCompare : jsstring -> jsstring -> Z) : Prop :=
  forall s t, localeCompare s t <= 0 \/ localeCompare t s <= 0.

(** With no sort key active the list on display is the retained original
    order itself, and with one it is a rearrangement of it. *)
Definition shows_original (s : TasksList.State) : Prop :=
  Permutation (TasksList.tasks s) (TasksList.originalOrder s)
  /\ (TasksList.currentSort s = None
      -> TasksList.tasks s = TasksList.originalOrder s).

(** The actions whose handlers make no request. *)
Definition is_local (a : TasksList.Action) : bool :=
  match a with
  | TasksList.DeleteSelectedTasks | TasksList.HandleDeleteTask _
  | TasksList.FetchTasks => false
  | _ => true
  end.

Definition deleted_one_toast : Toast :=
  mkToast (lit "Task deleted successfully") success.

Definition not_deleted_one_toast : Toast :=
  mkToast (lit "Failed to delete task") Net.error.

(** A string with no white space at either end. *)
Definition trimmed (s : jsstring) : bool :=
  match s with
  | [] => true
  | c :: _ => negb (isWhiteSpace c) && negb (isWhiteSpace (last s c))
  end.

(** The value of a field of a request body (the empty string when the
    body has no such field). *)
Definition field (name : string) (body : list (string * jsstring)) : jsstring :=
  match find (fun e => String.eqb (fst e) name) body with
  | Some e => snd e
  | None => []
  end.

Definition title_required_toast : Toast :=
  mkToast (lit "Task title is required") Net.error.

(** Two more sample tasks, one created first and modified last, the other
    the other way round; and a dashboard service that lists no task. *)
Definition task_old : TasksList.Task :=
  TasksList.mkTask (lit "7") (lit "G") None (Some (lit "Low"))
                   (lit "2024-01-01") (lit "2024-06-30").

Definition task_new : TasksList.Task :=
  TasksList.mkTask (lit "8") (lit "H") None (Some (lit "Low"))
                   (lit "2024-06-30") (lit "2024-01-01").

Definition listing_nothing : Oracle (list Dashboard.Task) :=
  fun _ _ => Responds (mkResponse true (Some [])).

(* ================================================================= *)
(** ** Facts about the JavaScript layer *)

Lemma eqb_eq (s t : jsstring) : eqb s t = true <-> s = t.
Proof.
  unfold eqb; destruct (list_eq_dec N.eq_dec s t); intuition congruence.
Qed.

Lemma eqb_refl (s : jsstring) : eqb s s = true.
Proof. now apply eqb_eq. Qed.

Lemma eqb_neq (s t : jsstring) : eqb s t = false <-> s <> t.
Proof.
  unfold eqb; destruct (list_eq_dec N.eq_dec s t); intuition congruence.
Qed.

Lemma includes_In (l : list jsstring) (s : jsstring) :
  includes l s = true <-> In s l.
Proof.
  unfold includes. rewrite existsb_exists. split.
  - intros [x [Hx He]]. apply eqb_eq in He. now subst.
  - intros H. exists s. split; [assumption | apply eqb_refl].
Qed.

Lemma trimStart_nil (s : jsstring) :
  trimStart s = [] <-> forallb isWhiteSpace s = true.
Proof.
  induction s as [|c s IH]; simpl.
  - tauto.
  - destruct (isWhiteSpace c); simpl; [exact IH | split; discriminate].
Qed.

Lemma trimStart_head (s : jsstring) :
  match trimStart s with
  | [] => True
  | c :: _ => isWhiteSpace c = false
  end.
Proof.
  induction s as [|c s IH]; simpl; [exact I|].
  destruct (isWhiteSpace c) eqn:E; [exact IH | exact E].
Qed.

(** [trim] leaves nothing exactly when every code unit is white space. *)
Lemma trim_blank (s : jsstring) :
  truthy (trim s) = false <-> forallb isWhiteSpace s = true.
Proof.
  unfold trim, trimEnd. split.
  - intros H.
    assert (Hn : trimStart (rev (trimStart s)) = []).
    { destruct (trimStart (rev (trimStart s))) as [|c r] eqn:E; [reflexivity|].
      simpl in H. destruct (rev r ++ [c]) eqn:E2; [|discriminate].
      symmetry in E2. now apply app_cons_not_nil in E2. }
    apply trimStart_nil in Hn.
    apply trimStart_nil.
    pose proof (trimStart_head s) as Hh.
    destruct (trimStart s) as [|c r]; [reflexivity|].
    assert (Hc : isWhiteSpace c = true).
    { eapply forallb_forall; [exact Hn|]. rewrite <- in_rev. now left. }
    congruence.
  - intros H. apply trimStart_nil in H. rewrite H. reflexivity.
Qed.

Lemma sort_perm {A} (c : A -> A -> number) (l : list A) :
  Permutation (Js.sort c l) l.
Proof.
  assert (Hins : forall x l', Permutation (Js.insert c x l') (x :: l')).
  { intros x l'. induction l' as [|y l' IH]; simpl; [reflexivity|].
    destruct (sortCompare c x y <=? 0); [reflexivity|].
    rewrite IH. apply perm_swap. }
  induction l as [|x l IH]; simpl; [reflexivity|].
  rewrite Hins. now constructor.
Qed.

(* ================================================================= *)
(** ** The comparators of [sortTasks] *)

Section Comparators.

Variable getTime : jsstring -> number.
Variable localeCompare : jsstring -> jsstring -> Z.

Local Abbreviation compareTasks := (TasksList.compareTasks getTime localeCompare).
Local Abbreviation sorted option := (Js.sort (compareTasks option)).

Lemma present_dated (t : TasksList.Task) :
  dated t = true -> exists d, present (TasksList.dueDate t) = Some d
                              /\ TasksList.dueDate t = Some d.
Proof.
  unfold dated, truthy_opt, present.
  destruct (TasksList.dueDate t) as [d|]; [|discriminate].
  intros H. rewrite H. now exists d.
Qed.

Lemma present_undated (t : TasksList.Task) :
  dated t = false -> present (TasksList.dueDate t) = None.
Proof.
  unfold dated, truthy_opt, present.
  destruct (TasksList.dueDate t) as [d|]; [|reflexivity].
  now intros ->.
Qed.

Lemma compare_dated_undated (a b : TasksList.Task) :
  dated a = true -> dated b = false ->
  compareTasks TasksList.byDueDate a b = Some (-1)
  /\ compareTasks TasksList.byDueDate b a = Some 1.
Proof.
  intros Ha Hb. destruct (present_dated a Ha) as [d [Hd _]].
  apply present_undated in Hb.
  unfold TasksList.compareTasks. rewrite Hd, Hb. now split.
Qed.

Lemma compare_undated (a b : TasksList.Task) :
  dated a = false -> dated b = false ->
  compareTasks TasksList.byDueDate a b = Some 0.
Proof.
  intros Ha Hb. apply present_undated in Ha, Hb.
  unfold TasksList.compareTasks. now rewrite Ha, Hb.
Qed.

Lemma compare_dated (a b : TasksList.Task) (da db : jsstring) :
  TasksList.dueDate a = Some da -> TasksList.dueDate b = Some db ->
  dated a = true -> dated b = true ->
  compareTasks TasksList.byDueDate a b = Js.sub (getTime db) (getTime da).
Proof.
  unfold dated, truthy_opt, TasksList.compareTasks, present.
  intros -> -> -> ->. reflexivity.
Qed.

Lemma sorted_pair (option : TasksList.SortOption) (a b : TasksList.Task) (v : Z) :
  compareTasks option a b = Some v ->
  sorted option [a; b] = if v <=? 0 then [a; b] else [b; a].
Proof.
  intros H. simpl. unfold sortCompare. now rewrite H.
Qed.

Lemma insert_dateless_last (x : TasksList.Task) (l : list TasksList.Task) :
  dateless_last l = true ->
  dateless_last (Js.insert (compareTasks TasksList.byDueDate) x l) = true.
Proof.
  induction l as [|y l IH]; simpl; intros H.
  - now rewrite orb_true_r.
  - apply andb_true_iff in H. destruct H as [Hy Hl].
    fold (dated y) in Hy. unfold sortCompare.
    destruct (dated x) eqn:Dx; destruct (dated y) eqn:Dy.
    + destruct (match compareTasks TasksList.byDueDate x y with
                | Some v => v | None => 0 end <=? 0); simpl.
      * fold (dated x) (dated y). now rewrite Dx, Dy, Hl.
      * fold (dated y). now rewrite Dy, IH.
    + destruct (compare_dated_undated x y Dx Dy) as [E _]. rewrite E. simpl.
      fold (dated x) (dated y). rewrite Dx, Dy. simpl in *. now rewrite Hy, Hl.
    + destruct (compare_dated_undated y x Dy Dx) as [_ E]. rewrite E. simpl.
      fold (dated y). now rewrite Dy, IH.
    + rewrite (compare_undated x y Dx Dy). simpl.
      fold (dated x) (dated y). rewrite Dx, Dy. simpl in *. now rewrite Hy, Hl.
Qed.

(** X1.  Sorting by due date puts every task without a due date after
    every task with one, whatever the list and whatever the dates parse
    to. *)
Lemma sorted_by_due_date_dateless_last (l : list TasksList.Task) :
  dateless_last (sorted TasksList.byDueDate l) = true.
Proof.
  induction l as [|x l IH]; simpl; [reflexivity|].
  now apply insert_dateless_last.
Qed.

(** C10.  In the due-date comparator a task whose due date is the empty
    string is treated exactly as a task whose due date is null: both
    comparisons give the same result, so it sorts after every dated task
    and ties with every task that has no date or an empty one. *)
Theorem empty_due_date_is_no_due_date (a b : TasksList.Task) :
  TasksList.dueDate a = Some [] ->
  compareTasks TasksList.byDueDate a b
    = compareTasks TasksList.byDueDate (withDueDate None a) b
  /\ compareTasks TasksList.byDueDate b a
    = compareTasks TasksList.byDueDate b (withDueDate None a)
  /\ (dated b = true ->
        compareTasks TasksList.byDueDate a b = Some 1
        /\ compareTasks TasksList.byDueDate b a = Some (-1)
        /\ sorted TasksList.byDueDate [a; b] = [b; a]
        /\ sorted TasksList.byDueDate [b; a] = [b; a])
  /\ (dated b = false ->
        compareTasks TasksList.byDueDate a b = Some 0
        /\ compareTasks TasksList.byDueDate b a = Some 0).
Proof.
  intros Ha.
  assert (Hu : dated a = false) by (unfold dated; now rewrite Ha).
  assert (Hp : present (TasksList.dueDate a) = None) by now rewrite Ha.
  repeat split.
  - unfold TasksList.compareTasks. now rewrite Hp.
  - unfold TasksList.compareTasks. now rewrite Hp.
  - now apply compare_dated_undated.
  - now apply compare_dated_undated.
  - destruct (compare_dated_undated b a H Hu) as [_ Hab].
    now rewrite (sorted_pair _ _ _ _ Hab).
  - destruct (compare_dated_undated b a H Hu) as [Hba _].
    now rewrite (sorted_pair _ _ _ _ Hba).
  - now apply compare_undated.
  - now apply compare_undated.
Qed.

(** C4.  The due-date comparator puts a task with a due date before a task
    without one, whichever way round they are given, and orders two tasks
    with dates by time value descending: the result is the second task's
    time minus the first's, so the later date comes first. *)
Theorem due_date_comparator (a b : TasksList.Task) :
  (dated a = true -> dated b = false ->
     compareTasks TasksList.byDueDate a b = Some (-1)
     /\ compareTasks TasksList.byDueDate b a = Some 1
     /\ sorted TasksList.byDueDate [a; b] = [a; b]
     /\ sorted TasksList.byDueDate [b; a] = [a; b])
  /\ (forall da db ta tb,
        TasksList.dueDate a = Some da -> TasksList.dueDate b = Some db ->
        dated a = true -> dated b = true ->
        getTime da = Some ta -> getTime db = Some tb ->
        compareTasks TasksList.byDueDate a b = Some (tb - ta)
        /\ (tb < ta ->
              sorted TasksList.byDueDate [a; b] = [a; b]
              /\ sorted TasksList.byDueDate [b; a] = [a; b])).
Proof.
  split.
  - intros Ha Hb. destruct (compare_dated_undated a b Ha Hb) as [Hab Hba].
    repeat split; try assumption.
    + now rewrite (sorted_pair _ _ _ _ Hab).
    + now rewrite (sorted_pair _ _ _ _ Hba).
  - intros da db ta tb Hda Hdb Ha Hb Hta Htb.
    assert (Hab : compareTasks TasksList.byDueDate a b = Some (tb - ta)).
    { rewrite (compare_dated a b da db Hda Hdb Ha Hb), Hta, Htb. reflexivity. }
    assert (Hba : compareTasks TasksList.byDueDate b a = Some (ta - tb)).
    { rewrite (compare_dated b a db da Hdb Hda Hb Ha), Hta, Htb. reflexivity. }
    split; [exact Hab|]. intros Hlt. split.
    + rewrite (sorted_pair _ _ _ _ Hab).
      destruct (tb - ta <=? 0) eqn:E; [reflexivity | lia].
    + rewrite (sorted_pair _ _ _ _ Hba).
      destruct (ta - tb <=? 0) eqn:E; [lia | reflexivity].
Qed.

Lemma priorityRank_ordinal (t : TasksList.Task) :
  TasksList.priorityRank t
  = if names_inherited_property (TasksList.priority t) then None
    else Some (spec_priority_ordinal (TasksList.priority t)).
Proof.
  unfold TasksList.priorityRank, names_inherited_property, TasksList.priorityOrder.
  destruct (TasksList.priority t) as [s|]; [|reflexivity].
  unfold spec_priority_ordinal, TasksList.priorityKey.
  destruct (eqb s (lit "High")) eqn:E1.
  { apply eqb_eq in E1. subst s. reflexivity. }
  destruct (eqb s (lit "Medium")) eqn:E2.
  { apply eqb_eq in E2. subst s. reflexivity. }
  destruct (eqb s (lit "Low")) eqn:E3.
  { apply eqb_eq in E3. subst s. reflexivity. }
  destruct (eqb s (lit "null")) eqn:E4.
  { apply eqb_eq in E4. subst s. reflexivity. }
  destruct (includes Object_prototype_keys s); reflexivity.
Qed.

(** C5, as the code has it.  For two tasks whose priorities do not name a
    property inherited from [Object.prototype], the priority comparator is
    the difference of the ordinals High=3, Medium=2, Low=1 and 0 for an
    absent or any other value, second task minus first: the higher priority
    comes first. *)
Theorem priority_comparator (a b : TasksList.Task) :
  names_inherited_property (TasksList.priority a) = false ->
  names_inherited_property (TasksList.priority b) = false ->
  TasksList.priorityRank a = Some (spec_priority_ordinal (TasksList.priority a))
  /\ compareTasks TasksList.byPriority a b
     = Some (spec_priority_ordinal (TasksList.priority b)
             - spec_priority_ordinal (TasksList.priority a))
  /\ (spec_priority_ordinal (TasksList.priority b)
        < spec_priority_ordinal (TasksList.priority a) ->
        sorted TasksList.byPriority [a; b] = [a; b]
        /\ sorted TasksList.byPriority [b; a] = [a; b]).
Proof.
  intros Ha Hb.
  assert (Ra := priorityRank_ordinal a). rewrite Ha in Ra.
  assert (Rb := priorityRank_ordinal b). rewrite Hb in Rb.
  assert (Hab : compareTasks TasksList.byPriority a b
                = Some (spec_priority_ordinal (TasksList.priority b)
                        - spec_priority_ordinal (TasksList.priority a))).
  { unfold TasksList.compareTasks. now rewrite Ra, Rb. }
  assert (Hba : compareTasks TasksList.byPriority b a
                = Some (spec_priority_ordinal (TasksList.priority a)
                        - spec_priority_ordinal (TasksList.priority b))).
  { unfold TasksList.compareTasks. now rewrite Ra, Rb. }
  repeat split; try assumption.
  - rewrite (sorted_pair _ _ _ _ Hab).
    destruct (_ <=? 0) eqn:E; [reflexivity | lia].
  - rewrite (sorted_pair _ _ _ _ Hba).
    destruct (_ <=? 0) eqn:E; [lia | reflexivity].
Qed.

End Comparators.

(** The statements above on sample tasks. *)
Lemma empty_due_date_witness :
  TasksList.dueDate task_blank_date = Some []
  /\ dated task_jan = true
  /\ TasksList.compareTasks sample_getTime sample_localeCompare
       TasksList.byDueDate task_blank_date task_jan = Some 1
  /\ Js.sort (TasksList.compareTasks sample_getTime sample_localeCompare
                TasksList.byDueDate) [task_blank_date; task_jan]
     = [task_jan; task_blank_date]
  /\ dated task_undated = false
  /\ TasksList.compareTasks sample_getTime sample_localeCompare
       TasksList.byDueDate task_blank_date task_undated = Some 0.
Proof.
  destruct (empty_due_date_is_no_due_date sample_getTime sample_localeCompare
              task_blank_date task_jan eq_refl) as [_ [_ [Hd _]]].
  destruct (empty_due_date_is_no_due_date sample_getTime sample_localeCompare
              task_blank_date task_undated eq_refl) as [_ [_ [_ Hu]]].
  destruct (Hd eq_refl) as [H1 [_ [H2 _]]].
  destruct (Hu eq_refl) as [H3 _].
  repeat split; assumption.
Defined.

Lemma due_date_comparator_witness :
  dated task_jun = true /\ dated task_undated = false
  /\ Js.sort (TasksList.compareTasks sample_getTime sample_localeCompare
                TasksList.byDueDate) [task_undated; task_jun]
     = [task_jun; task_undated]
  /\ dated task_jan = true
  /\ TasksList.compareTasks sample_getTime sample_localeCompare
       TasksList.byDueDate task_jun task_jan
     = Some (1704067200000 - 1719705600000)
  /\ Js.sort (TasksList.compareTasks sample_getTime sample_localeCompare
                TasksList.byDueDate) [task_jan; task_jun]
     = [task_jun; task_jan].
Proof.
  destruct (due_date_comparator sample_getTime sample_localeCompare
              task_jun task_undated) as [Hu _].
  destruct (due_date_comparator sample_getTime sample_localeCompare
              task_jun task_jan) as [_ Hd].
  destruct (Hu eq_refl eq_refl) as [_ [_ [_ H1]]].
  destruct (Hd (lit "2024-06-30") (lit "2024-01-01") 1719705600000 1704067200000
               eq_refl eq_refl eq_refl eq_refl eq_refl eq_refl) as [H2 H3].
  destruct (H3 eq_refl) as [_ H4].
  repeat split; assumption.
Defined.

Lemma priority_comparator_witness :
  names_inherited_property (TasksList.priority task_urgent) = false
  /\ names_inherited_property (TasksList.priority task_jun) = false
  /\ names_inherited_property (TasksList.priority task_undated) = false
  /\ TasksList.priorityRank task_urgent = Some 0
  /\ TasksList.priorityRank task_undated = Some 0
  /\ TasksList.compareTasks sample_getTime sample_localeCompare
       TasksList.byPriority task_urgent task_jun = Some 3
  /\ Js.sort (TasksList.compareTasks sample_getTime sample_localeCompare
                TasksList.byPriority) [task_urgent; task_jun]
     = [task_jun; task_urgent].
Proof.
  destruct (priority_comparator sample_getTime sample_localeCompare
              task_jun task_urgent eq_refl eq_refl) as [_ [_ H1]].
  destruct (priority_comparator sample_getTime sample_localeCompare
              task_urgent task_jun eq_refl eq_refl) as [H2 [H3 _]].
  destruct (priority_comparator sample_getTime sample_localeCompare
              task_undated task_jun eq_refl eq_refl) as [H4 _].
  destruct (H1 eq_refl) as [_ H5].
  repeat split; assumption.
Defined.

(** C5 as worded fails on a priority that names an inherited property: the
    lookup finds [Object.prototype.constructor], a function, which [|| 0]
    keeps and the subtraction turns into NaN.  The task is not ranked 0 (a
    task ranked 0 goes after a High one); the comparison is NaN, the sort
    reads it as a tie, and the High task stays behind. *)
Lemma inherited_priority_key_is_not_ranked_zero :
  spec_priority_ordinal (TasksList.priority task_constructor) = 0
  /\ TasksList.priorityRank task_constructor <> Some 0
  /\ TasksList.compareTasks sample_getTime sample_localeCompare
       TasksList.byPriority task_constructor task_jun
     <> Some (spec_priority_ordinal (TasksList.priority task_jun)
              - spec_priority_ordinal (TasksList.priority task_constructor))
  /\ Js.sort (TasksList.compareTasks sample_getTime sample_localeCompare
                TasksList.byPriority) [task_constructor; task_jun]
     = [task_constructor; task_jun]
  /\ Js.sort (TasksList.compareTasks sample_getTime sample_localeCompare
                TasksList.byPriority) [task_urgent; task_jun]
     = [task_jun; task_urgent].
Proof.
  repeat split; try reflexivity; vm_compute; discriminate.
Qed.

(* ================================================================= *)
(** ** The Task Collection View *)

Lemma requests_app (l l' : list Event) :
  requests (l ++ l') = requests l ++ requests l'.
Proof. apply flat_map_app. Qed.

Lemma toasts_app (l l' : list Event) :
  toasts (l ++ l') = toasts l ++ toasts l'.
Proof. apply flat_map_app. Qed.

Lemma console_errors_app (l l' : list Event) :
  console_errors (l ++ l') = console_errors l ++ console_errors l'.
Proof. apply flat_map_app. Qed.

Lemma SortOption_eqb_eq (x y : TasksList.SortOption) :
  TasksList.SortOption_eqb x y = true <-> x = y.
Proof. destruct x, y; simpl; split; congruence. Qed.

Lemma sameSort_eq (x y : option TasksList.SortOption) :
  TasksList.sameSort x y = true <-> x = y.
Proof.
  destruct x as [x|], y as [y|]; simpl; try (split; congruence).
  rewrite SortOption_eqb_eq. split; congruence.
Qed.

Section TaskCollection.

Variable getTime : jsstring -> number.
Variable localeCompare : jsstring -> jsstring -> Z.
Variable api_tasks : Oracle (list TasksList.Task).
Variable api_task : Oracle unit.

Local Abbreviation step :=
  (TasksList.step getTime localeCompare api_tasks api_task).
Local Abbreviation run :=
  (TasksList.run getTime localeCompare api_tasks api_task).
Local Abbreviation compareTasks := (TasksList.compareTasks getTime localeCompare).

(** A click on a sort chip, with the effect that follows it. *)
Lemma step_sort_click (w : World TasksList.State) (option : TasksList.SortOption) :
  step w (TasksList.HandleSortClick option)
  = if TasksList.sameSort (TasksList.currentSort (state w)) (Some option)
    then mkWorld (TasksList.setTasks (TasksList.originalOrder (state w))
                    (TasksList.setCurrentSort None (state w))) (log w)
    else mkWorld (TasksList.setTasks
                    (Js.sort (compareTasks option) (TasksList.tasks (state w)))
                    (TasksList.setCurrentSort (Some option) (state w))) (log w).
Proof.
  destruct w as [s l]. unfold TasksList.step, TasksList.dispatch. simpl.
  unfold TasksList.handleSortClick, bind, get, exec. simpl.
  destruct (TasksList.currentSort s) as [c|] eqn:Ec; simpl.
  - destruct (TasksList.SortOption_eqb c option) eqn:E; simpl;
      unfold TasksList.depsChanged; simpl; rewrite Ec; simpl;
      rewrite ?E, ?Nat.eqb_refl; simpl; reflexivity.
  - unfold TasksList.depsChanged; simpl; rewrite Ec; simpl. reflexivity.
Qed.

(** C3.  Activating a sort key and toggling the same key again shows the
    tasks in the retained original order, whatever the working list and
    whichever the key; in between, the key is active and the list is the
    sorted working list. *)
Theorem sort_toggled_twice_restores_original_order
    (w : World TasksList.State) (option : TasksList.SortOption) :
  TasksList.currentSort (state w) <> Some option ->
  let activated := step w (TasksList.HandleSortClick option) in
  let cleared := run w [TasksList.HandleSortClick option;
                        TasksList.HandleSortClick option] in
  TasksList.currentSort (state activated) = Some option
  /\ TasksList.tasks (state activated)
     = Js.sort (compareTasks option) (TasksList.tasks (state w))
  /\ TasksList.currentSort (state cleared) = None
  /\ TasksList.tasks (state cleared) = TasksList.originalOrder (state w)
  /\ TasksList.originalOrder (state cleared) = TasksList.originalOrder (state w)
  /\ TasksList.selectedTasks (state cleared) = TasksList.selectedTasks (state w).
Proof.
  intros Hne. cbv zeta. unfold TasksList.run. simpl fold_left.
  assert (E : TasksList.sameSort (TasksList.currentSort (state w)) (Some option)
              = false).
  { destruct (TasksList.sameSort _ _) eqn:E; [|reflexivity].
    apply sameSort_eq in E. contradiction. }
  rewrite (step_sort_click w option), E.
  rewrite step_sort_click. simpl.
  assert (R : TasksList.SortOption_eqb option option = true)
    by now apply SortOption_eqb_eq.
  rewrite R. simpl. repeat split; reflexivity.
Qed.

(** *** Fetching the collection *)

Lemma sortEffect_run (w : World TasksList.State) :
  TasksList.sortEffect getTime localeCompare w
  = (Ret tt,
     mkWorld
       (TasksList.setTasks
          (match TasksList.currentSort (state w) with
           | Some option => Js.sort (compareTasks option) (TasksList.tasks (state w))
           | None => TasksList.originalOrder (state w)
           end) (state w))
       (log w)).
Proof.
  destruct w as [s l]. unfold TasksList.sortEffect, bind, get. simpl.
  destruct (TasksList.currentSort s); reflexivity.
Qed.

Lemma dispatch_run (h : M TasksList.State unit) (w : World TasksList.State) :
  log (TasksList.dispatch getTime localeCompare h w) = log (exec h w)
  /\ exists t,
       state (TasksList.dispatch getTime localeCompare h w)
       = TasksList.setTasks t (state (exec h w)).
Proof.
  unfold TasksList.dispatch.
  destruct (TasksList.depsChanged _ _).
  - assert (E : exec (TasksList.sortEffect getTime localeCompare) (exec h w)
                = snd (TasksList.sortEffect getTime localeCompare (exec h w)))
      by reflexivity.
    rewrite E, sortEffect_run. simpl. split; [reflexivity|].
    eexists. reflexivity.
  - split; [reflexivity|]. exists (TasksList.tasks (state (exec h w))).
    now destruct (state (exec h w)).
Qed.

Lemma fetchTasks_run (w : World TasksList.State) :
  TasksList.fetchTasks api_tasks w
  = (Ret tt,
     let failed e :=
       mkWorld
         (TasksList.setToast
            (Some (mkToast (lit "Failed to fetch tasks") Net.error)) (state w))
         (((log w ++ [Requested (GET TasksList.url_tasks)])
             ++ [ConsoleError (lit "Error fetching tasks:") (Some e)])
            ++ [Toasted (mkToast (lit "Failed to fetch tasks") Net.error)]) in
     match api_tasks (requests (log w)) (GET TasksList.url_tasks) with
     | NetworkError => failed FetchRejected
     | Responds r =>
         if ok r then
           match json r with
           | Some data =>
               mkWorld (TasksList.setOriginalOrder data
                          (TasksList.setTasks data (state w)))
                       (log w ++ [Requested (GET TasksList.url_tasks)])
           | None => failed JsonRejected
           end
         else failed (Error (lit "Failed to fetch tasks"))
     end).
Proof.
  destruct w as [s l].
  unfold TasksList.fetchTasks, try_catch, bind, fetch. simpl.
  destruct (api_tasks (requests l) (GET TasksList.url_tasks)) as [|r]; simpl.
  - reflexivity.
  - destruct (ok r); simpl; [|reflexivity].
    unfold response_json. destruct (json r); reflexivity.
Qed.

(** *** Deleting the selection *)

Lemma deleteOne_run (taskId : jsstring) (counts : nat * nat)
    (w : World TasksList.State) :
  TasksList.deleteOne api_task taskId counts w
  = if delete_succeeds api_task (requests (log w)) taskId
    then (Ret (S (fst counts), snd counts),
          mkWorld (state w) (log w ++ [Requested (DELETE (TasksList.url_task taskId))]))
    else (Ret (fst counts, S (snd counts)),
          mkWorld (state w)
            ((log w ++ [Requested (DELETE (TasksList.url_task taskId))])
               ++ [ConsoleError (lit "Error deleting task " ++ taskId ++ lit ":")
                     (Some (match api_task (requests (log w))
                                    (DELETE (TasksList.url_task taskId)) with
                            | NetworkError => FetchRejected
                            | Responds _ =>
                                Error (lit "Failed to delete task " ++ taskId)
                            end))])).
Proof.
  destruct w as [s l].
  unfold TasksList.deleteOne, delete_succeeds, try_catch, bind, fetch. simpl.
  destruct (api_task (requests l) (DELETE (TasksList.url_task taskId))) as [|r];
    simpl; [reflexivity|].
  destruct (ok r); reflexivity.
Qed.

Lemma deleteEach_run (ids : list jsstring) :
  forall (counts : nat * nat) (w : World TasksList.State),
  exists l',
    TasksList.deleteEach api_task ids counts w
    = (Ret ((fst counts + fst (tally api_task (requests (log w)) ids))%nat,
            (snd counts + snd (tally api_task (requests (log w)) ids))%nat),
       mkWorld (state w) (log w ++ l'))
    /\ requests l' = delete_requests ids
    /\ toasts l' = []
    /\ List.length (console_errors l')
       = snd (tally api_task (requests (log w)) ids).
Proof.
  induction ids as [|taskId rest IH]; intros [s0 f0] [s l]; simpl.
  - exists []. rewrite !Nat.add_0_r, app_nil_r. now repeat split.
  - unfold bind. rewrite deleteOne_run. simpl.
    destruct (delete_succeeds api_task (requests l) taskId); simpl.
    + destruct (IH (S s0, f0)
                  (mkWorld s (l ++ [Requested (DELETE (TasksList.url_task taskId))])))
        as [l' [E [Hr [Ht Hc]]]].
      simpl in E, Hc. rewrite requests_app in E, Hc. simpl in E, Hc.
      exists (Requested (DELETE (TasksList.url_task taskId)) :: l').
      rewrite E, <- app_assoc, Nat.add_succ_r. simpl.
      rewrite Hr, Ht, Hc. now repeat split.
    + match goal with
      | |- context [ConsoleError ?lbl ?e] =>
          destruct (IH (s0, S f0)
                      (mkWorld s ((l ++ [Requested (DELETE (TasksList.url_task taskId))])
                                    ++ [ConsoleError lbl e])))
            as [l' [E [Hr [Ht Hc]]]]
      end.
      simpl in E, Hc. rewrite !requests_app in E, Hc. simpl in E, Hc.
      rewrite app_nil_r in E, Hc.
      match type of E with
      | context [ConsoleError ?lbl ?e] =>
          exists (Requested (DELETE (TasksList.url_task taskId))
                    :: ConsoleError lbl e :: l')
      end.
      rewrite E, <- !app_assoc, Nat.add_succ_r. simpl.
      rewrite Hr, Ht, Hc. now repeat split.
Qed.

Lemma tally_total (history : list Request) (ids : list jsstring) :
  (fst (tally api_task history ids) + snd (tally api_task history ids)
   = List.length ids)%nat.
Proof.
  revert history. induction ids as [|taskId rest IH]; intros history; simpl.
  - reflexivity.
  - specialize (IH (history ++ [DELETE (TasksList.url_task taskId)])).
    destruct (delete_succeeds api_task history taskId); simpl; lia.
Qed.

Lemma deleteSelectedTasks_run (w : World TasksList.State) :
  let ids := TasksList.tasksToDelete (state w) in
  let history := requests (log w) in
  let successes := fst (tally api_task history ids) in
  let failures := snd (tally api_task history ids) in
  let refetch_failed := fetch_fails api_tasks (history ++ delete_requests ids) in
  let w' := exec (TasksList.deleteSelectedTasks api_tasks api_task) w in
  outcome (TasksList.deleteSelectedTasks api_tasks api_task) w = Ret tt
  /\ toasts (log w')
     = toasts (log w) ++ for_nonzero successes deleted_toast
         ++ for_nonzero failures not_deleted_toast
         ++ (if refetch_failed then [fetch_failed_toast] else [])
  /\ requests (log w')
     = history ++ delete_requests ids ++ [GET TasksList.url_tasks]
  /\ List.length (console_errors (log w'))
     = (List.length (console_errors (log w)) + failures
        + (if refetch_failed then 1 else 0))%nat
  /\ TasksList.selectedTasks (state w') = []
  /\ TasksList.isDeleteModalOpen (state w') = false
  /\ TasksList.tasksToDelete (state w') = []
  /\ TasksList.toast (state w')
     = last (map Some (for_nonzero successes deleted_toast
                         ++ for_nonzero failures not_deleted_toast
                         ++ (if refetch_failed then [fetch_failed_toast] else [])))
            (TasksList.toast (state w)).
Proof.
  destruct w as [s l]. cbv zeta. simpl state. simpl log.
  destruct (deleteEach_run (TasksList.tasksToDelete s) (0, 0)%nat (mkWorld s l))
    as [l' [E [Hr [Ht Hc]]]].
  simpl in E, Hc.
  unfold outcome, exec, TasksList.deleteSelectedTasks, bind, get. simpl.
  rewrite E. clear E. unfold fetch_fails.
  set (t := tally api_task (requests l) (TasksList.tasksToDelete s)) in *.
  destruct (fst t) as [|ns]; destruct (snd t) as [|nf]; simpl;
    unfold unawaited; rewrite fetchTasks_run; simpl;
    rewrite ?requests_app, ?Hr; simpl; rewrite ?app_nil_r;
    (destruct (api_tasks (requests l ++ delete_requests (TasksList.tasksToDelete s))
                         (GET TasksList.url_tasks)) as [|r];
     [| destruct (ok r); [destruct (json r)|]]);
    simpl;
    rewrite ?toasts_app, ?requests_app, ?console_errors_app, ?length_app,
      ?Hr, ?Ht, ?Hc; simpl;
    rewrite <- ?app_assoc, ?app_nil_r; simpl;
    repeat split; try reflexivity; lia.
Qed.

(** C1.  Confirming a batch delete of the ids in [tasksToDelete], of which
    [successes] delete requests succeed and [failures] fail, emits the
    toast "Successfully deleted <successes> task(s)" when [successes] is not
    zero and then "Failed to delete <failures> task(s)" when [failures] is
    not zero (and nothing else, but for the toast of a re-fetch that itself
    fails); one delete request goes out per id; after them the collection is
    requested exactly once; and the selection, the modal flag and the
    pending ids are cleared, whatever the number of failures.  The toast
    cell holds one toast: it ends with the last one emitted. *)
Theorem batch_delete_report (w : World TasksList.State) :
  let ids := TasksList.tasksToDelete (state w) in
  let history := requests (log w) in
  let successes := fst (tally api_task history ids) in
  let failures := snd (tally api_task history ids) in
  let w' := step w TasksList.DeleteSelectedTasks in
  (successes + failures = List.length ids)%nat
  /\ toasts (log w')
     = toasts (log w) ++ for_nonzero successes deleted_toast
         ++ for_nonzero failures not_deleted_toast
         ++ (if fetch_fails api_tasks (history ++ delete_requests ids)
             then [fetch_failed_toast] else [])
  /\ requests (log w')
     = history ++ delete_requests ids ++ [GET TasksList.url_tasks]
  /\ TasksList.selectedTasks (state w') = []
  /\ TasksList.isDeleteModalOpen (state w') = false
  /\ TasksList.tasksToDelete (state w') = []
  /\ TasksList.toast (state w')
     = last (map Some (for_nonzero successes deleted_toast
                         ++ for_nonzero failures not_deleted_toast
                         ++ (if fetch_fails api_tasks (history ++ delete_requests ids)
                             then [fetch_failed_toast] else [])))
            (TasksList.toast (state w)).
Proof.
  cbv zeta.
  destruct (deleteSelectedTasks_run w) as [_ [Ht [Hr [_ [Hs [Hm [Hd Hc]]]]]]].
  unfold TasksList.step. simpl TasksList.handler.
  destruct (dispatch_run (TasksList.deleteSelectedTasks api_tasks api_task) w)
    as [El [t Es]].
  rewrite El, Es. simpl.
  repeat split; try assumption. apply tally_total.
Qed.

(** *** Deleting one task *)

Lemma handleDeleteTask_run (taskId : jsstring) (w : World TasksList.State) :
  TasksList.handleDeleteTask api_tasks api_task taskId w
  = (Ret tt,
     if delete_succeeds api_task (requests (log w)) taskId
     then
       exec (TasksList.fetchTasks api_tasks)
         (mkWorld
            (TasksList.setToast
               (Some (mkToast (lit "Task deleted successfully") success)) (state w))
            ((log w ++ [Requested (DELETE (TasksList.url_task taskId))])
               ++ [Toasted (mkToast (lit "Task deleted successfully") success)]))
     else
       mkWorld
         (TasksList.setToast
            (Some (mkToast (lit "Failed to delete task") Net.error)) (state w))
         (((log w ++ [Requested (DELETE (TasksList.url_task taskId))])
             ++ [ConsoleError (lit "Error deleting task " ++ taskId ++ lit ":")
                   (Some (match api_task (requests (log w))
                                  (DELETE (TasksList.url_task taskId)) with
                          | NetworkError => FetchRejected
                          | Responds _ =>
                              Error (lit "Failed to delete task " ++ taskId)
                          end))])
            ++ [Toasted (mkToast (lit "Failed to delete task") Net.error)])).
Proof.
  destruct w as [s l].
  unfold TasksList.handleDeleteTask, delete_succeeds, try_catch, bind, fetch.
  simpl.
  destruct (api_task (requests l) (DELETE (TasksList.url_task taskId))) as [|r];
    simpl; [reflexivity|].
  destruct (ok r); reflexivity.
Qed.

(** *** The pending ids between opening the modal and confirming *)

Lemma fetchTasks_keeps (w : World TasksList.State) :
  let s' := state (exec (TasksList.fetchTasks api_tasks) w) in
  TasksList.tasksToDelete s' = TasksList.tasksToDelete (state w)
  /\ TasksList.selectedTasks s' = TasksList.selectedTasks (state w)
  /\ TasksList.isDeleteModalOpen s' = TasksList.isDeleteModalOpen (state w)
  /\ TasksList.currentSort s' = TasksList.currentSort (state w).
Proof.
  unfold exec. rewrite fetchTasks_run. simpl.
  destruct (api_tasks _ _) as [|r]; [now repeat split|].
  destruct (ok r); [destruct (json r)|]; now repeat split.
Qed.

Lemma handler_keeps_pending (a : TasksList.Action) (w : World TasksList.State) :
  keeps_modal a = true ->
  let s' := state (exec (TasksList.handler api_tasks api_task a) w) in
  TasksList.tasksToDelete s' = TasksList.tasksToDelete (state w)
  /\ TasksList.isDeleteModalOpen s' = TasksList.isDeleteModalOpen (state w).
Proof.
  destruct a; simpl; try discriminate; intros _.
  - now destruct w.
  - now destruct w.
  - now destruct w.
  - now destruct w.
  - destruct w as [s l]. unfold exec, TasksList.handleSortClick, bind, get. simpl.
    destruct (TasksList.currentSort s) as [c|]; [|now split].
    destruct (TasksList.SortOption_eqb c option); now split.
  - unfold exec at 1 2. rewrite handleDeleteTask_run. simpl.
    destruct (delete_succeeds _ _ _); [|now split].
    match goal with
    | |- context [exec (TasksList.fetchTasks api_tasks) ?w0] =>
        destruct (fetchTasks_keeps w0) as [H1 [_ [H2 _]]]
    end.
    rewrite H1, H2. now split.
  - destruct (fetchTasks_keeps w) as [H1 [_ [H2 _]]]. now split.
Qed.

Lemma step_keeps_pending (a : TasksList.Action) (w : World TasksList.State) :
  keeps_modal a = true ->
  TasksList.tasksToDelete (state (step w a)) = TasksList.tasksToDelete (state w)
  /\ TasksList.isDeleteModalOpen (state (step w a))
     = TasksList.isDeleteModalOpen (state w).
Proof.
  intros H. unfold TasksList.step.
  destruct (dispatch_run
              (TasksList.handler api_tasks api_task a) w)
    as [_ [t E]].
  rewrite E. simpl. now apply handler_keeps_pending.
Qed.

Lemma run_keeps_pending (actions : list TasksList.Action) :
  forall w : World TasksList.State,
  forallb keeps_modal actions = true ->
  TasksList.tasksToDelete (state (run w actions)) = TasksList.tasksToDelete (state w)
  /\ TasksList.isDeleteModalOpen (state (run w actions))
     = TasksList.isDeleteModalOpen (state w).
Proof.
  induction actions as [|a rest IH]; intros w H; simpl.
  - now split.
  - simpl in H. apply andb_true_iff in H. destruct H as [Ha Hrest].
    destruct (IH (step w a) Hrest) as [H1 H2].
    destruct (step_keeps_pending a w Ha) as [H3 H4].
    unfold TasksList.run in *. simpl. rewrite H1, H2. now split.
Qed.

Lemma step_open_modal (w : World TasksList.State) :
  step w TasksList.OpenDeleteModal
  = mkWorld (TasksList.setIsDeleteModalOpen true
               (TasksList.setTasksToDelete (TasksList.selectedTasks (state w))
                  (state w)))
            (log w).
Proof.
  destruct w as [s l].
  unfold TasksList.step, TasksList.dispatch, TasksList.depsChanged. simpl.
  assert (E : TasksList.sameSort (TasksList.currentSort s) (TasksList.currentSort s)
              = true) by now apply sameSort_eq.
  rewrite E, Nat.eqb_refl. reflexivity.
Qed.

(** C9.  The delete requests sent on confirming are those of the selection
    as it was when the modal was opened, one per id and in its order:
    whatever is toggled, selected, cancelled, sorted, deleted singly or
    fetched in between leaves the pending ids alone, and the successes and
    failures counted add up to the size of that snapshot. *)
Theorem batch_delete_uses_snapshot
    (w : World TasksList.State) (between : list TasksList.Action) :
  forallb keeps_modal between = true ->
  let snapshot := TasksList.selectedTasks (state w) in
  let opened := step w TasksList.OpenDeleteModal in
  let waiting := run opened between in
  let confirmed := step waiting TasksList.DeleteSelectedTasks in
  TasksList.isDeleteModalOpen (state waiting) = true
  /\ TasksList.tasksToDelete (state waiting) = snapshot
  /\ requests (log confirmed)
     = requests (log waiting) ++ delete_requests snapshot
         ++ [GET TasksList.url_tasks]
  /\ (fst (tally api_task (requests (log waiting)) snapshot)
      + snd (tally api_task (requests (log waiting)) snapshot)
      = List.length snapshot)%nat.
Proof.
  intros H. cbv zeta.
  destruct (run_keeps_pending between (step w TasksList.OpenDeleteModal) H)
    as [Hp Hm].
  rewrite step_open_modal in Hp, Hm. simpl in Hp, Hm.
  rewrite step_open_modal.
  set (waiting := run _ between) in *.
  destruct (deleteSelectedTasks_run waiting) as [_ [_ [Hr _]]].
  unfold TasksList.step. simpl TasksList.handler.
  destruct (dispatch_run (TasksList.deleteSelectedTasks api_tasks api_task) waiting)
    as [El _].
  rewrite El, Hr, Hp. repeat split; try assumption. apply tally_total.
Qed.

(** *** Selected ids and displayed ids *)

Lemma fetchTasks_refreshed (w : World TasksList.State) :
  refreshed (state w) (state (exec (TasksList.fetchTasks api_tasks) w)).
Proof.
  unfold exec, refreshed. rewrite fetchTasks_run. simpl.
  destruct (api_tasks _ _) as [|r]; [|destruct (ok r); [destruct (json r)|]];
    simpl; (split; [reflexivity|]);
    first [left; now repeat split | right; now repeat split].
Qed.

Lemma deleteSelectedTasks_refreshed (w : World TasksList.State) :
  refreshed (state w)
            (state (exec (TasksList.deleteSelectedTasks api_tasks api_task) w)).
Proof.
  destruct w as [s l].
  destruct (deleteEach_run (TasksList.tasksToDelete s) (0, 0)%nat (mkWorld s l))
    as [l' [E _]].
  simpl in E.
  unfold exec, TasksList.deleteSelectedTasks, bind, get. simpl.
  rewrite E. clear E.
  set (t := tally api_task (requests l) (TasksList.tasksToDelete s)) in *.
  destruct (fst t) as [|ns]; destruct (snd t) as [|nf]; simpl;
    unfold unawaited; rewrite fetchTasks_run; simpl;
    (destruct (api_tasks _ _) as [|r];
     [| destruct (ok r); [destruct (json r)|]]);
    simpl; unfold refreshed; simpl; (split; [reflexivity|]);
    first [left; now repeat split | right; now repeat split].
Qed.

Lemma dispatch_same_deps (h : M TasksList.State unit) (w : World TasksList.State) :
  TasksList.currentSort (state (exec h w)) = TasksList.currentSort (state w) ->
  TasksList.originalOrderRef (state (exec h w))
  = TasksList.originalOrderRef (state w) ->
  TasksList.dispatch getTime localeCompare h w = exec h w.
Proof.
  intros Hs Hr. unfold TasksList.dispatch, TasksList.depsChanged.
  rewrite Hs, Hr, Nat.eqb_refl.
  assert (E : TasksList.sameSort (TasksList.currentSort (state w))
                                 (TasksList.currentSort (state w)) = true)
    by now apply sameSort_eq.
  now rewrite E.
Qed.





(** X20.  A task's own delete button, when the service deletes the task
    and the re-fetch succeeds: the list shows the fetched tasks and the selection
    is what it was, so a selected id that the fetched list lacks is left
    selected and not displayed. *)
Lemma single_delete_keeps_selection
    (w : World TasksList.State) (taskId : jsstring) (data : list TasksList.Task) :
  delete_succeeds api_task (requests (log w)) taskId = true ->
  api_tasks (requests (log w) ++ [DELETE (TasksList.url_task taskId)])
            (GET TasksList.url_tasks)
  = Responds (mkResponse true (Some data)) ->
  let w' := step w (TasksList.HandleDeleteTask taskId) in
  TasksList.selectedTasks (state w') = TasksList.selectedTasks (state w)
  /\ Permutation (TasksList.tasks (state w')) data
  /\ (forall selected,
        In selected (TasksList.selectedTasks (state w)) ->
        ~ In selected (map TasksList.id data) ->
        ~ incl (TasksList.selectedTasks (state w')) (TasksList.displayed (state w'))).
Proof.
  intros Hd Hg. cbv zeta.
  assert (E : exec (TasksList.handleDeleteTask api_tasks api_task taskId) w
              = mkWorld
                  (TasksList.setOriginalOrder data
                     (TasksList.setTasks data
                        (TasksList.setToast
                           (Some (mkToast (lit "Task deleted successfully") success))
                           (state w))))
                  (((log w ++ [Requested (DELETE (TasksList.url_task taskId))])
                      ++ [Toasted (mkToast (lit "Task deleted successfully") success)])
                     ++ [Requested (GET TasksList.url_tasks)])).
  { unfold exec at 1. rewrite handleDeleteTask_run, Hd. simpl snd.
    unfold exec. rewrite fetchTasks_run. simpl.
    rewrite !requests_app. simpl. rewrite app_nil_r, Hg. reflexivity. }
  assert (Hs : TasksList.selectedTasks
                 (state (step w (TasksList.HandleDeleteTask taskId)))
               = TasksList.selectedTasks (state w)
               /\ Permutation
                    (TasksList.tasks (state (step w (TasksList.HandleDeleteTask taskId))))
                    data).
  { unfold TasksList.step, TasksList.dispatch. simpl TasksList.handler.
    rewrite E. unfold TasksList.depsChanged. simpl.
    assert (N : (TasksList.originalOrderRef (state w)
                 =? S (TasksList.originalOrderRef (state w)))%nat = false)
      by (apply Nat.eqb_neq; lia).
    rewrite N, orb_true_r.
    match goal with
    | |- context [exec (TasksList.sortEffect getTime localeCompare) ?w0] =>
        assert (R : exec (TasksList.sortEffect getTime localeCompare) w0
                    = snd (TasksList.sortEffect getTime localeCompare w0))
          by reflexivity;
        rewrite R, sortEffect_run
    end.
    simpl. split; [reflexivity|].
    destruct (TasksList.currentSort (state w)); [apply sort_perm | reflexivity]. }
  destruct Hs as [Hsel Hperm]. split; [exact Hsel|]. split; [exact Hperm|].
  intros selected Hin Hout Hincl. apply Hout.
  unfold TasksList.displayed in Hincl. rewrite Hsel in Hincl.
  apply (Permutation_in selected (Permutation_map TasksList.id Hperm)).
  now apply Hincl.
Qed.

End TaskCollection.

(** *** The statements above against the sample service *)

Lemma sort_toggled_twice_witness :
  TasksList.currentSort (state sample_mounted) <> Some TasksList.byTitle
  /\ TasksList.tasks (state sample_mounted) = [task_jan; task_jun; task_undated]
  /\ TasksList.tasks
       (state (sample_run sample_mounted [TasksList.HandleSortClick TasksList.byTitle]))
     = [task_jun; task_jan; task_undated]
  /\ TasksList.tasks
       (state (sample_run sample_mounted
                 [TasksList.HandleSortClick TasksList.byTitle;
                  TasksList.HandleSortClick TasksList.byTitle]))
     = [task_jan; task_jun; task_undated].
Proof.
  assert (H : TasksList.currentSort (state sample_mounted) <> Some TasksList.byTitle)
    by discriminate.
  destruct (sort_toggled_twice_restores_original_order
              sample_getTime sample_localeCompare sample_api_tasks sample_api_task
              sample_mounted TasksList.byTitle H)
    as [_ [H1 [_ [H2 _]]]].
  split; [exact H | split; [reflexivity | split; [exact H1 | exact H2]]].
Defined.

(* ================================================================= *)
(** ** The Dashboard/Creation View *)

Section DashboardView.

Variable api_tasks : Oracle (list Dashboard.Task).
Variable api_create : Oracle Dashboard.ErrorData.

Local Abbreviation handleSubmit := (Dashboard.handleSubmit api_tasks api_create).

Lemma dashboard_fetchTasks_run (w : World Dashboard.State) :
  Dashboard.fetchTasks api_tasks w
  = (Ret tt,
     let logged label e :=
       mkWorld (state w)
         ((log w ++ [Requested (GET Dashboard.url_tasks)])
            ++ [ConsoleError label e]) in
     match api_tasks (requests (log w)) (GET Dashboard.url_tasks) with
     | NetworkError => logged (lit "Error fetching tasks:") (Some FetchRejected)
     | Responds r =>
         if ok r then
           match json r with
           | Some data =>
               mkWorld (Dashboard.setTasks data (state w))
                       (log w ++ [Requested (GET Dashboard.url_tasks)])
           | None => logged (lit "Error fetching tasks:") (Some JsonRejected)
           end
         else logged (lit "Failed to fetch tasks") None
     end).
Proof.
  destruct w as [s l].
  unfold Dashboard.fetchTasks, try_catch, bind, fetch. simpl.
  destruct (api_tasks (requests l) (GET Dashboard.url_tasks)) as [|r]; simpl.
  - reflexivity.
  - destruct (ok r); simpl; [|reflexivity].
    unfold response_json. destruct (json r); reflexivity.
Qed.

(** A fetch of the dashboard changes the task list at most, and shows no
    toast. *)
Lemma dashboard_fetchTasks_frame (w : World Dashboard.State) :
  let w' := exec (Dashboard.fetchTasks api_tasks) w in
  Dashboard.form (state w') = Dashboard.form (state w)
  /\ Dashboard.toast (state w') = Dashboard.toast (state w)
  /\ toasts (log w') = toasts (log w)
  /\ requests (log w') = requests (log w) ++ [GET Dashboard.url_tasks]
  /\ List.length (console_errors (log w'))
     = (List.length (console_errors (log w))
        + if fetch_fails api_tasks (requests (log w)) then 1 else 0)%nat.
Proof.
  unfold exec, fetch_fails. rewrite dashboard_fetchTasks_run. simpl.
  change TasksList.url_tasks with Dashboard.url_tasks.
  destruct (api_tasks _ _) as [|r]; [|destruct (ok r); [destruct (json r)|]];
    simpl;
    rewrite ?toasts_app, ?requests_app, ?console_errors_app, ?length_app; simpl;
    rewrite ?app_nil_r, <- ?app_assoc; repeat split; try reflexivity; lia.
Qed.

Lemma blank_title_run (w : World Dashboard.State) :
  forallb isWhiteSpace (Dashboard.taskTitle (state w)) = true ->
  handleSubmit w
  = (Ret tt,
     mkWorld
       (Dashboard.setToast
          (Some (mkToast (lit "Task title is required") Net.error)) (state w))
       (log w ++ [Toasted (mkToast (lit "Task title is required") Net.error)])).
Proof.
  intros H. apply trim_blank in H. destruct w as [s l].
  unfold Dashboard.handleSubmit, bind, get. simpl in *. rewrite H. reflexivity.
Qed.

(** What a submission with a title does, by the reply to the creation
    request. *)
Lemma submit_run (w : World Dashboard.State) :
  forallb isWhiteSpace (Dashboard.taskTitle (state w)) = false ->
  let request := POST Dashboard.url_tasks (Dashboard.creation_body (state w)) in
  let sent := log w ++ [Requested request] in
  let refused e :=
    mkWorld
      (Dashboard.setToast (Some (mkToast (lit "Error adding task") Net.error))
         (state w))
      ((sent ++ [ConsoleError (lit "Error adding task:") (Some e)])
         ++ [Toasted (mkToast (lit "Error adding task") Net.error)]) in
  handleSubmit w
  = (Ret tt,
     match api_create (requests (log w)) request with
     | NetworkError => refused FetchRejected
     | Responds r =>
         if ok r then
           exec (Dashboard.fetchTasks api_tasks)
             (mkWorld
                (Dashboard.setToast
                   (Some (mkToast (lit "Task added successfully!") success))
                   (Dashboard.setTags []
                      (Dashboard.setStatus (lit "Not Started")
                         (Dashboard.setPriority []
                            (Dashboard.setDueDate []
                               (Dashboard.setTaskDescription []
                                  (Dashboard.setTaskTitle [] (state w))))))))
                (sent ++ [Toasted (mkToast (lit "Task added successfully!") success)]))
         else
           match json r with
           | None => refused JsonRejected
           | Some Dashboard.json_null => refused NullProperty
           | Some (Dashboard.json_value m) =>
               mkWorld
                 (Dashboard.setToast
                    (Some (mkToast (or_else m (lit "Failed to add task")) Net.error))
                    (state w))
                 (sent ++ [Toasted (mkToast (or_else m (lit "Failed to add task"))
                                            Net.error)])
           end
     end).
Proof.
  intros H. cbv zeta.
  assert (Ht : truthy (trim (Dashboard.taskTitle (state w))) = true).
  { destruct (truthy _) eqn:E; [reflexivity|].
    apply trim_blank in E. congruence. }
  destruct w as [s l].
  unfold Dashboard.handleSubmit, bind, get. simpl in *. rewrite Ht. simpl.
  unfold try_catch, fetch. simpl.
  destruct (api_create (requests l) _) as [|r]; simpl; [reflexivity|].
  destruct (ok r); simpl; [reflexivity|].
  unfold response_json. destruct (json r) as [[|m]|]; reflexivity.
Qed.

(** C7.  Submitting the form with a title that is empty or all white space
    shows the error toast "Task title is required", makes no request, and
    leaves every field of the form (and the task list) as it was. *)
Theorem blank_title_is_rejected (w : World Dashboard.State) :
  forallb isWhiteSpace (Dashboard.taskTitle (state w)) = true ->
  let w' := exec handleSubmit w in
  outcome handleSubmit w = Ret tt
  /\ toasts (log w')
     = toasts (log w) ++ [mkToast (lit "Task title is required") Net.error]
  /\ Dashboard.toast (state w')
     = Some (mkToast (lit "Task title is required") Net.error)
  /\ requests (log w') = requests (log w)
  /\ Dashboard.form (state w') = Dashboard.form (state w)
  /\ Dashboard.tasks (state w') = Dashboard.tasks (state w).
Proof.
  intros H. unfold exec, outcome. rewrite (blank_title_run w H). simpl.
  rewrite toasts_app, requests_app. simpl. rewrite app_nil_r.
  now repeat split.
Qed.

(** A creation that the network or the service refuses. *)
Lemma creation_refused (w : World Dashboard.State) :
  forallb isWhiteSpace (Dashboard.taskTitle (state w)) = false ->
  let request := POST Dashboard.url_tasks (Dashboard.creation_body (state w)) in
  let reply := api_create (requests (log w)) request in
  let w' := exec handleSubmit w in
  created reply = false ->
  Dashboard.form (state w') = Dashboard.form (state w)
  /\ requests (log w') = requests (log w) ++ [request]
  /\ exists m,
       toasts (log w') = toasts (log w) ++ [mkToast m Net.error]
       /\ Dashboard.toast (state w') = Some (mkToast m Net.error)
       /\ match server_message reply with
          | Some sent => m = sent
          | None => m = lit "Failed to add task" \/ m = lit "Error adding task"
          end.
Proof.
  intros H. cbv zeta. unfold exec.
  rewrite (submit_run w H). cbv zeta. simpl snd.
  unfold created, server_message.
  destruct (api_create (requests (log w)) _) as [|r].
  - intros _. simpl.
    rewrite !toasts_app, !requests_app. simpl. rewrite !app_nil_r.
    repeat split. eexists. repeat split. now right.
  - destruct (ok r); [discriminate|]. intros _.
    destruct (json r) as [[|m]|]; simpl;
      rewrite !toasts_app, !requests_app; simpl; rewrite !app_nil_r;
      repeat split; eexists; repeat split; try (now right).
    destruct m as [m|]; simpl; [|now left].
    destruct (truthy m); [reflexivity | now left].
Qed.

Lemma handleSubmit_returns (w : World Dashboard.State) :
  outcome handleSubmit w = Ret tt.
Proof.
  unfold outcome.
  destruct (forallb isWhiteSpace (Dashboard.taskTitle (state w))) eqn:E.
  - now rewrite (blank_title_run w E).
  - now rewrite (submit_run w E).
Qed.

(** C8.  A submission with a title sends one creation request.  When the
    reply is a success, every field is back at its default, the toast
    "Task added successfully!" is shown and the collection is requested
    again.  When the request fails (transport or status), the form keeps
    all its values, nothing else is requested, and one error toast is
    shown: with the message the service sent when it sent a non-empty one,
    and with a generic text otherwise. *)
Theorem creation_outcome (w : World Dashboard.State) :
  forallb isWhiteSpace (Dashboard.taskTitle (state w)) = false ->
  let request := POST Dashboard.url_tasks (Dashboard.creation_body (state w)) in
  let reply := api_create (requests (log w)) request in
  let w' := exec handleSubmit w in
  (created reply = true ->
     Dashboard.form (state w') = Dashboard.defaults
     /\ toasts (log w')
        = toasts (log w) ++ [mkToast (lit "Task added successfully!") success]
     /\ Dashboard.toast (state w')
        = Some (mkToast (lit "Task added successfully!") success)
     /\ requests (log w')
        = requests (log w) ++ [request; GET Dashboard.url_tasks])
  /\ (created reply = false ->
       Dashboard.form (state w') = Dashboard.form (state w)
       /\ requests (log w') = requests (log w) ++ [request]
       /\ exists m,
            toasts (log w') = toasts (log w) ++ [mkToast m Net.error]
            /\ Dashboard.toast (state w') = Some (mkToast m Net.error)
            /\ match server_message reply with
               | Some sent => m = sent
               | None => m = lit "Failed to add task" \/ m = lit "Error adding task"
               end).
Proof.
  intros H. cbv zeta. split; [|now apply creation_refused].
  unfold exec. rewrite (submit_run w H). cbv zeta. simpl snd.
  unfold created.
  destruct (api_create (requests (log w)) _) as [|r]; [discriminate|].
  destruct (ok r); [intros _|discriminate].
  match goal with
  | |- context [exec (Dashboard.fetchTasks api_tasks) ?w0] =>
      destruct (dashboard_fetchTasks_frame w0) as [Hf [Ht [Hl [Hr _]]]]
  end.
  rewrite Hf, Ht, Hl, Hr. simpl.
  rewrite !toasts_app, !requests_app. simpl.
  rewrite !app_nil_r, <- app_assoc. now repeat split.
Qed.

End DashboardView.

(* ================================================================= *)
(** ** Failures of the network, in both views *)

Lemma fetchTasks_failure (api_tasks : Oracle (list TasksList.Task))
    (w : World TasksList.State) :
  fetch_fails api_tasks (requests (log w)) = true ->
  let w' := exec (TasksList.fetchTasks api_tasks) w in
  (exists e, console_errors (log w')
             = console_errors (log w) ++ [(lit "Error fetching tasks:", Some e)])
  /\ toasts (log w') = toasts (log w) ++ [fetch_failed_toast]
  /\ TasksList.toast (state w') = Some fetch_failed_toast
  /\ TasksList.tasks (state w') = TasksList.tasks (state w).
Proof.
  unfold fetch_fails, exec. rewrite fetchTasks_run. simpl.
  destruct (api_tasks _ _) as [|r]; [|destruct (ok r); [destruct (json r)|]];
    simpl; try discriminate; intros _;
    rewrite !toasts_app, !console_errors_app; simpl; rewrite !app_nil_r;
    (split; [eexists; reflexivity | now repeat split]).
Qed.

Lemma handleDeleteTask_failure (api_tasks : Oracle (list TasksList.Task))
    (api_task : Oracle unit) (taskId : jsstring) (w : World TasksList.State) :
  delete_succeeds api_task (requests (log w)) taskId = false ->
  let w' := exec (TasksList.handleDeleteTask api_tasks api_task taskId) w in
  (exists e, console_errors (log w')
             = console_errors (log w)
                 ++ [(lit "Error deleting task " ++ taskId ++ lit ":", Some e)])
  /\ toasts (log w')
     = toasts (log w) ++ [mkToast (lit "Failed to delete task") Net.error]
  /\ requests (log w')
     = requests (log w) ++ [DELETE (TasksList.url_task taskId)].
Proof.
  intros H. unfold exec. rewrite handleDeleteTask_run, H. simpl.
  rewrite !toasts_app, !console_errors_app, !requests_app. simpl.
  rewrite !app_nil_r. split; [eexists; reflexivity | now split].
Qed.

Lemma handleDeleteTask_returns (api_tasks : Oracle (list TasksList.Task))
    (api_task : Oracle unit) (taskId : jsstring) (w : World TasksList.State) :
  outcome (TasksList.handleDeleteTask api_tasks api_task taskId) w = Ret tt.
Proof. unfold outcome. now rewrite handleDeleteTask_run. Qed.

Lemma in_for_nonzero (n : nat) (t : nat -> Toast) :
  (0 < n)%nat -> In (t n) (for_nonzero n t).
Proof. destruct n; simpl; [lia | now left]. Qed.

(** C6, as the code has it.  No handler that talks to the network ends
    with an exception.  In the Task Collection View a failed fetch, a
    failed single delete and every failed delete of a batch are logged and
    reported in an error toast.  In the Dashboard a refused creation is
    reported in an error toast, while a failed fetch of the collection is
    logged and shows no toast at all. *)
Theorem network_failures_are_caught
    (api_tasks : Oracle (list TasksList.Task)) (api_task : Oracle unit)
    (dash_tasks : Oracle (list Dashboard.Task))
    (api_create : Oracle Dashboard.ErrorData)
    (w : World TasksList.State) (d : World Dashboard.State) (taskId : jsstring) :
  (outcome (TasksList.fetchTasks api_tasks) w = Ret tt
   /\ outcome (TasksList.handleDeleteTask api_tasks api_task taskId) w = Ret tt
   /\ outcome (TasksList.deleteSelectedTasks api_tasks api_task) w = Ret tt
   /\ outcome (Dashboard.fetchTasks dash_tasks) d = Ret tt
   /\ outcome (Dashboard.handleSubmit dash_tasks api_create) d = Ret tt)
  /\ (fetch_fails api_tasks (requests (log w)) = true ->
       let w' := exec (TasksList.fetchTasks api_tasks) w in
       (exists e, console_errors (log w')
                  = console_errors (log w) ++ [(lit "Error fetching tasks:", Some e)])
       /\ toasts (log w') = toasts (log w) ++ [fetch_failed_toast])
  /\ (delete_succeeds api_task (requests (log w)) taskId = false ->
       let w' := exec (TasksList.handleDeleteTask api_tasks api_task taskId) w in
       (exists e, console_errors (log w')
                  = console_errors (log w)
                      ++ [(lit "Error deleting task " ++ taskId ++ lit ":", Some e)])
       /\ toasts (log w')
          = toasts (log w) ++ [mkToast (lit "Failed to delete task") Net.error])
  /\ (let failures :=
         snd (tally api_task (requests (log w)) (TasksList.tasksToDelete (state w))) in
       let w' := exec (TasksList.deleteSelectedTasks api_tasks api_task) w in
       (0 < failures)%nat ->
       (List.length (console_errors (log w')) >=
          List.length (console_errors (log w)) + failures)%nat
       /\ In (not_deleted_toast failures) (toasts (log w')))
  /\ (forallb isWhiteSpace (Dashboard.taskTitle (state d)) = false ->
       created (api_create (requests (log d))
                  (POST Dashboard.url_tasks (Dashboard.creation_body (state d))))
         = false ->
       let d' := exec (Dashboard.handleSubmit dash_tasks api_create) d in
       exists m, toasts (log d') = toasts (log d) ++ [mkToast m Net.error])
  /\ (fetch_fails dash_tasks (requests (log d)) = true ->
       let d' := exec (Dashboard.fetchTasks dash_tasks) d in
       List.length (console_errors (log d')) = S (List.length (console_errors (log d)))
       /\ toasts (log d') = toasts (log d)
       /\ Dashboard.toast (state d') = Dashboard.toast (state d)).
Proof.
  destruct (deleteSelectedTasks_run api_tasks api_task w)
    as [Hret [Ht [_ [Hc _]]]].
  repeat apply conj.
  - unfold outcome. now rewrite fetchTasks_run.
  - apply handleDeleteTask_returns.
  - exact Hret.
  - unfold outcome. now rewrite dashboard_fetchTasks_run.
  - apply handleSubmit_returns.
  - intros H. destruct (fetchTasks_failure api_tasks w H) as [He [Hto _]].
    now split.
  - intros H.
    destruct (handleDeleteTask_failure api_tasks api_task taskId w H) as [He [Hto _]].
    now split.
  - cbv zeta. intros Hpos. split.
    + rewrite Hc. lia.
    + rewrite Ht. apply in_or_app. right. apply in_or_app. right.
      apply in_or_app. left. now apply in_for_nonzero.
  - intros Hb Hc'.
    destruct (creation_refused dash_tasks api_create d Hb Hc') as [_ [_ [m [Hm _]]]].
    now exists m.
  - intros H. cbv zeta.
    destruct (dashboard_fetchTasks_frame dash_tasks d) as [_ [Hto [Hl [_ Hce]]]].
    rewrite H in Hce. repeat split; try assumption. lia.
Qed.

(** C6 as worded fails on the dashboard's fetch: with the network down, and
    with a service that answers with a non-success status, the failure is
    logged and no toast is emitted or shown. *)
Lemma dashboard_fetch_failure_shows_no_toast :
  fetch_fails (@offline (list Dashboard.Task)) [] = true
  /\ toasts (log (exec (Dashboard.fetchTasks offline) dashboard_filled)) = []
  /\ Dashboard.toast (state (exec (Dashboard.fetchTasks offline) dashboard_filled))
     = None
  /\ console_errors (log (exec (Dashboard.fetchTasks offline) dashboard_filled))
     = [(lit "Error fetching tasks:", Some FetchRejected)]
  /\ fetch_fails (@unavailable (list Dashboard.Task)) [] = true
  /\ toasts (log (exec (Dashboard.fetchTasks unavailable) dashboard_filled)) = []
  /\ Dashboard.toast (state (exec (Dashboard.fetchTasks unavailable) dashboard_filled))
     = None
  /\ console_errors (log (exec (Dashboard.fetchTasks unavailable) dashboard_filled))
     = [(lit "Failed to fetch tasks", None)].
Proof. repeat split. Qed.

Lemma network_failures_witness :
  fetch_fails (@offline (list TasksList.Task)) (requests (log sample_confirming)) = true
  /\ toasts (log (exec (TasksList.fetchTasks offline) sample_confirming))
     = toasts (log sample_confirming) ++ [fetch_failed_toast]
  /\ toasts (log (exec (TasksList.handleDeleteTask offline offline (lit "2"))
                       sample_confirming))
     = toasts (log sample_confirming)
         ++ [mkToast (lit "Failed to delete task") Net.error]
  /\ In (not_deleted_toast 3)
        (toasts (log (exec (TasksList.deleteSelectedTasks offline offline)
                           sample_confirming)))
  /\ (exists m, toasts (log (exec (Dashboard.handleSubmit offline offline)
                                  dashboard_filled))
                = toasts (log dashboard_filled) ++ [mkToast m Net.error])
  /\ toasts (log (exec (Dashboard.fetchTasks offline) dashboard_filled))
     = toasts (log dashboard_filled).
Proof.
  destruct (network_failures_are_caught offline offline offline offline
              sample_confirming dashboard_filled (lit "2"))
    as [_ [H1 [H2 [H3 [H4 H5]]]]].
  destruct (H1 eq_refl) as [_ T1].
  destruct (H2 eq_refl) as [_ T2].
  assert (Hpos : (0 < snd (tally offline (requests (log sample_confirming))
                             (TasksList.tasksToDelete (state sample_confirming))))%nat)
    by (vm_compute; lia).
  destruct (H3 Hpos) as [_ T3].
  destruct (H5 eq_refl) as [_ [T5 _]].
  split; [reflexivity|].
  split; [exact T1|]. split; [exact T2|]. split; [exact T3|].
  split; [exact (H4 eq_refl eq_refl) | exact T5].
Defined.

(* ================================================================= *)
(** ** The sample service, end to end *)

(** C1 on three pending ids of which one delete fails: the first id was
    already deleted, so its request is refused; the two others succeed. *)
Lemma batch_delete_three_one_fails :
  TasksList.tasksToDelete (state sample_confirming) = [lit "1"; lit "2"; lit "3"]
  /\ tally sample_api_task (requests (log sample_confirming))
           [lit "1"; lit "2"; lit "3"] = (2, 1)%nat
  /\ toasts (log (sample_run sample_confirming [TasksList.DeleteSelectedTasks]))
     = toasts (log sample_confirming)
         ++ [mkToast (lit "Successfully deleted 2 task(s)") success;
             mkToast (lit "Failed to delete 1 task(s)") Net.error]
  /\ requests (log (sample_run sample_confirming [TasksList.DeleteSelectedTasks]))
     = requests (log sample_confirming)
         ++ [DELETE (lit "/api/tasks/1"); DELETE (lit "/api/tasks/2");
             DELETE (lit "/api/tasks/3"); GET (lit "/api/tasks")]
  /\ TasksList.selectedTasks
       (state (sample_run sample_confirming [TasksList.DeleteSelectedTasks])) = [].
Proof.
  destruct (batch_delete_report sample_getTime sample_localeCompare
              sample_api_tasks sample_api_task sample_confirming)
    as [_ [Ht [Hr [Hs _]]]].
  split; [reflexivity|]. split; [reflexivity|].
  split; [exact Ht|]. split; [exact Hr | exact Hs].
Defined.

Lemma batch_delete_snapshot_witness :
  let w := sample_run sample_mounted
             [TasksList.ToggleTaskSelection (lit "1");
              TasksList.ToggleTaskSelection (lit "2")] in
  let between := [TasksList.ToggleTaskSelection (lit "2");
                  TasksList.CancelSelection;
                  TasksList.HandleSortClick TasksList.byTitle;
                  TasksList.ToggleTaskSelection (lit "3")] in
  let waiting := sample_run (sample_run w [TasksList.OpenDeleteModal]) between in
  forallb keeps_modal between = true
  /\ TasksList.selectedTasks (state w) = [lit "1"; lit "2"]
  /\ TasksList.selectedTasks (state waiting) = [lit "3"]
  /\ requests (log (sample_run waiting [TasksList.DeleteSelectedTasks]))
     = requests (log waiting)
         ++ [DELETE (lit "/api/tasks/1"); DELETE (lit "/api/tasks/2");
             GET (lit "/api/tasks")].
Proof.
  cbv zeta.
  destruct (batch_delete_uses_snapshot sample_getTime sample_localeCompare
              sample_api_tasks sample_api_task
              (sample_run sample_mounted
                 [TasksList.ToggleTaskSelection (lit "1");
                  TasksList.ToggleTaskSelection (lit "2")])
              [TasksList.ToggleTaskSelection (lit "2");
               TasksList.CancelSelection;
               TasksList.HandleSortClick TasksList.byTitle;
               TasksList.ToggleTaskSelection (lit "3")]
              eq_refl)
    as [_ [_ [Hr _]]].
  split; [reflexivity|]. split; [reflexivity|]. split; [reflexivity | exact Hr].
Defined.


(** C2 on the sample service.  With task 1 selected, its own delete button
    is pressed: the service deletes it, the re-fetched list no longer shows
    it, and it is still selected.  Before the press every selected id was
    on display; after it, one is not. *)
Theorem single_delete_leaves_stale_selection :
  let selected := sample_run sample_mounted [TasksList.ToggleTaskSelection (lit "1")] in
  let deleted := sample_run selected [TasksList.HandleDeleteTask (lit "1")] in
  TasksList.offered (state sample_mounted) (TasksList.ToggleTaskSelection (lit "1"))
    = true
  /\ TasksList.offered (state selected) (TasksList.HandleDeleteTask (lit "1")) = true
  /\ selection_displayed (state selected) = true
  /\ TasksList.selectedTasks (state deleted) = [lit "1"]
  /\ TasksList.displayed (state deleted) = [lit "2"; lit "3"]
  /\ selection_displayed (state deleted) = false
  /\ ~ incl (TasksList.selectedTasks (state deleted))
            (TasksList.displayed (state deleted)).
Proof.
  cbv zeta. repeat split.
  intros H. specialize (H (lit "1") (or_introl eq_refl)).
  vm_compute in H. intuition discriminate.
Qed.

(* ================================================================= *)
(** ** The dashboard on sample forms *)

Lemma blank_title_witness :
  forallb isWhiteSpace (Dashboard.taskTitle (state dashboard_blank)) = true
  /\ toasts (log (exec (Dashboard.handleSubmit offline accepting) dashboard_blank))
     = [mkToast (lit "Task title is required") Net.error]
  /\ requests (log (exec (Dashboard.handleSubmit offline accepting) dashboard_blank))
     = []
  /\ Dashboard.form (state (exec (Dashboard.handleSubmit offline accepting)
                                 dashboard_blank))
     = Dashboard.form (state dashboard_blank).
Proof.
  destruct (blank_title_is_rejected offline accepting dashboard_blank eq_refl)
    as [_ [Ht [_ [Hr [Hf _]]]]].
  split; [reflexivity|]. split; [exact Ht|]. split; [exact Hr | exact Hf].
Defined.

Lemma creation_outcome_witness :
  forallb isWhiteSpace (Dashboard.taskTitle (state dashboard_filled)) = false
  /\ Dashboard.form (state (exec (Dashboard.handleSubmit offline accepting)
                                 dashboard_filled))
     = Dashboard.mkForm [] [] [] [] (lit "Not Started") []
  /\ requests (log (exec (Dashboard.handleSubmit offline accepting) dashboard_filled))
     = [POST (lit "/api/tasks")
          [("title", lit "Buy milk"); ("description", lit "two litres");
           ("dueDate", lit "2024-06-30"); ("priority", lit "High");
           ("status", lit "In Progress"); ("tags", lit "home")]%string;
        GET (lit "/api/tasks")]
  /\ Dashboard.form (state (exec (Dashboard.handleSubmit offline refusing)
                                 dashboard_filled))
     = Dashboard.form (state dashboard_filled)
  /\ Dashboard.toast (state (exec (Dashboard.handleSubmit offline refusing)
                                  dashboard_filled))
     = Some (mkToast (lit "Title already used") Net.error)
  /\ Dashboard.toast (state (exec (Dashboard.handleSubmit offline offline)
                                  dashboard_filled))
     = Some (mkToast (lit "Error adding task") Net.error).
Proof.
  destruct (creation_outcome offline accepting dashboard_filled eq_refl) as [Hok _].
  destruct (creation_outcome offline refusing dashboard_filled eq_refl) as [_ Hno].
  destruct (creation_outcome offline offline dashboard_filled eq_refl) as [_ Hoff].
  destruct (Hok eq_refl) as [Hf [_ [_ Hr]]].
  destruct (Hno eq_refl) as [Hk _].
  split; [reflexivity|]. split; [exact Hf|]. split; [exact Hr|].
  split; [exact Hk|]. split; reflexivity.
Defined.

(* ================================================================= *)
(** ** What [Array.prototype.sort] guarantees, by comparator *)

Section SortFacts.

Context {A : Type} (c : A -> A -> number).

(** Where the comparator decides the order of the elements that satisfy
    [P], the sorted array has each element in order with the next. *)
Lemma insert_in_order (P : A -> Prop) (R : A -> A -> Prop) (x : A) (l : list A) :
  (forall a b, P a -> P b -> sortCompare c a b <= 0 -> R a b) ->
  (forall a b, P a -> P b -> ~ sortCompare c a b <= 0 -> R b a) ->
  P x -> Forall P l -> Sorted R l -> Sorted R (Js.insert c x l).
Proof.
  intros Hle Hgt Hx Hl Hs. induction l as [|y l IH]; simpl.
  - repeat constructor.
  - inversion Hl as [|? ? Hy Hl']; subst. inversion Hs as [|? ? Hs' Hh]; subst.
    destruct (sortCompare c x y <=? 0) eqn:E.
    + constructor; [assumption|]. constructor. apply Hle; auto. lia.
    + constructor; [now apply IH|].
      assert (Ryx : R y x) by (apply Hgt; auto; lia).
      destruct l as [|z l]; simpl; [now constructor|].
      destruct (sortCompare c x z <=? 0); constructor; [assumption|].
      now inversion Hh.
Qed.

Lemma insert_Forall (P : A -> Prop) (x : A) (l : list A) :
  P x -> Forall P l -> Forall P (Js.insert c x l).
Proof.
  intros Hx Hl. induction l as [|y l IH]; simpl; [now repeat constructor|].
  inversion Hl; subst.
  destruct (sortCompare c x y <=? 0); constructor; auto.
Qed.

Lemma sort_in_order (P : A -> Prop) (R : A -> A -> Prop) (l : list A) :
  (forall a b, P a -> P b -> sortCompare c a b <= 0 -> R a b) ->
  (forall a b, P a -> P b -> ~ sortCompare c a b <= 0 -> R b a) ->
  Forall P l -> Sorted R (Js.sort c l) /\ Forall P (Js.sort c l).
Proof.
  intros Hle Hgt Hl. induction l as [|x l IH]; simpl.
  - split; constructor.
  - inversion Hl; subst. destruct IH as [Hs Hf]; [assumption|]. split.
    + now apply (insert_in_order P).
    + now apply insert_Forall.
Qed.

(** The sort is stable: the elements of a class whose members compare as
    equal come out in the order they went in. *)
Lemma insert_filter (p : A -> bool) (x : A) (l : list A) :
  (forall a b, p a = true -> p b = true -> sortCompare c a b <= 0) ->
  filter p (Js.insert c x l) = if p x then x :: filter p l else filter p l.
Proof.
  intros Hp. induction l as [|y l IH]; simpl.
  - now destruct (p x).
  - destruct (sortCompare c x y <=? 0) eqn:E; simpl.
    + now destruct (p x).
    + rewrite IH. destruct (p x) eqn:Px; [|reflexivity].
      destruct (p y) eqn:Py; [|reflexivity].
      specialize (Hp x y Px Py). lia.
Qed.

Lemma sort_filter (p : A -> bool) (l : list A) :
  (forall a b, p a = true -> p b = true -> sortCompare c a b <= 0) ->
  filter p (Js.sort c l) = filter p l.
Proof.
  intros Hp. induction l as [|x l IH]; simpl; [reflexivity|].
  rewrite (insert_filter p x _ Hp), IH. reflexivity.
Qed.

End SortFacts.




Lemma sample_localeCompare_collates : collates sample_localeCompare.
Proof.
  intros s. induction s as [|c s IH]; intros [|d t]; simpl; try lia.
  destruct (c <? d)%N eqn:E1; destruct (d <? c)%N eqn:E2; try lia.
  apply IH.
Qed.

(* ================================================================= *)
(** ** The order of the sorted list, key by key *)

Section SortOrders.

Variable getTime : jsstring -> number.
Variable localeCompare : jsstring -> jsstring -> Z.

Local Abbreviation compareTasks := (TasksList.compareTasks getTime localeCompare).
Local Abbreviation sorted option := (Js.sort (compareTasks option)).





Lemma sort_descending (k : TasksList.Task -> Z) (P : TasksList.Task -> Prop)
    (option : TasksList.SortOption) (l : list TasksList.Task) :
  (forall a b, P a -> P b -> compareTasks option a b = Some (k b - k a)) ->
  Forall P l ->
  StronglySorted (fun a b => k a >= k b) (sorted option l).
Proof.
  intros Hc Hl. apply Sorted_StronglySorted; [intros a b d; lia|].
  apply (sort_in_order (compareTasks option) P); [| |exact Hl].
  - intros a b Ha Hb. unfold sortCompare. rewrite (Hc a b Ha Hb). lia.
  - intros a b Ha Hb. unfold sortCompare. rewrite (Hc a b Ha Hb). lia.
Qed.

(** X4.  With timestamps that are dates, sorting by creation time or by
    modification time lists the tasks from the most recent to the oldest;
    with due dates that are dates, sorting by due date lists the tasks that
    have one from the latest to the earliest. *)
Theorem sorted_by_time_descending (l : list TasksList.Task) :
  (forallb (fun t => isValidDate getTime (TasksList.createdAt t)) l = true ->
   StronglySorted
     (fun a b => timeValue getTime (TasksList.createdAt a)
                 >= timeValue getTime (TasksList.createdAt b))
     (sorted TasksList.byCreatedAt l))
  /\ (forallb (fun t => isValidDate getTime (TasksList.updatedAt t)) l = true ->
      StronglySorted
        (fun a b => timeValue getTime (TasksList.updatedAt a)
                    >= timeValue getTime (TasksList.updatedAt b))
        (sorted TasksList.byUpdatedAt l))
  /\ (due_dates_valid getTime l = true ->
      StronglySorted
        (fun a b => dueTimeValue getTime a >= dueTimeValue getTime b)
        (sorted TasksList.byDueDate (filter dated l))).
Proof.
  repeat apply conj.
  - intros H.
    apply (sort_descending _
             (fun t => isValidDate getTime (TasksList.createdAt t) = true)).
    + intros a b Ha Hb. unfold isValidDate, timeValue in *. simpl.
      destruct (getTime (TasksList.createdAt a)); [|discriminate].
      destruct (getTime (TasksList.createdAt b)); [|discriminate]. reflexivity.
    + apply Forall_forall. now apply forallb_forall.
  - intros H.
    apply (sort_descending _
             (fun t => isValidDate getTime (TasksList.updatedAt t) = true)).
    + intros a b Ha Hb. unfold isValidDate, timeValue in *. simpl.
      destruct (getTime (TasksList.updatedAt a)); [|discriminate].
      destruct (getTime (TasksList.updatedAt b)); [|discriminate]. reflexivity.
    + apply Forall_forall. now apply forallb_forall.
  - intros H.
    apply (sort_descending _
             (fun t => exists d, present (TasksList.dueDate t) = Some d
                                 /\ isValidDate getTime d = true)).
    + intros a b [da [Ea Va]] [db [Eb Vb]].
      unfold dueTimeValue, isValidDate, timeValue in *. simpl.
      rewrite Ea, Eb.
      destruct (getTime da); [|discriminate].
      destruct (getTime db); [|discriminate]. reflexivity.
    + apply Forall_forall. intros t Ht. apply filter_In in Ht.
      destruct Ht as [Hin Hd].
      unfold due_dates_valid in H. rewrite forallb_forall in H.
      specialize (H t Hin).
      destruct (present_dated t Hd) as [d [Ed _]]. rewrite Ed in H.
      now exists d.
Qed.

(** X5.  When no priority names an inherited property, sorting by priority
    lists the tasks by ordinal from the highest to the lowest: High, then
    Medium, then Low, then the tasks with no or any other priority. *)
Theorem sorted_by_priority_descending (l : list TasksList.Task) :
  forallb (fun t => negb (names_inherited_property (TasksList.priority t))) l = true ->
  StronglySorted
    (fun a b => spec_priority_ordinal (TasksList.priority a)
                >= spec_priority_ordinal (TasksList.priority b))
    (sorted TasksList.byPriority l).
Proof.
  intros H.
  apply (sort_descending _
           (fun t => names_inherited_property (TasksList.priority t) = false)).
  - intros a b Ha Hb. simpl.
    rewrite (priorityRank_ordinal a), (priorityRank_ordinal b), Ha, Hb.
    reflexivity.
  - apply Forall_forall. intros t Ht. rewrite forallb_forall in H.
    apply negb_true_iff. now apply H.
Qed.


(** X7.  With a collation in which, of two strings, one does not come
    after the other, sorting by title puts every task in order with the
    next one, and tasks with the same title stay in the order they were
    in. *)
Theorem sorted_by_title_ascending (l : list TasksList.Task) :
  collates localeCompare ->
  Sorted (fun a b => localeCompare (TasksList.title a) (TasksList.title b) <= 0)
         (sorted TasksList.byTitle l)
  /\ forall s,
       filter (fun t => eqb (TasksList.title t) s) (sorted TasksList.byTitle l)
       = filter (fun t => eqb (TasksList.title t) s) l.
Proof.
  intros Hc. split.
  - apply (sort_in_order (compareTasks TasksList.byTitle) (fun _ => True)).
    + intros a b _ _. unfold sortCompare. simpl. lia.
    + intros a b _ _. unfold sortCompare. simpl. intros Hgt.
      destruct (Hc (TasksList.title a) (TasksList.title b)); [lia | assumption].
    + apply Forall_forall. auto.
  - intros s. apply sort_filter. intros a b Ha Hb.
    apply eqb_eq in Ha, Hb. unfold sortCompare. simpl. rewrite Ha, Hb.
    destruct (Hc s s); assumption.
Qed.

End SortOrders.

(* ================================================================= *)
(** ** More of the Task Collection View *)

Lemma bool_eq_by_true (a b : bool) : (a = true <-> b = true) -> a = b.
Proof. destruct a, b; intuition congruence. Qed.

Lemma length_filter_out (t : jsstring) (sel : list jsstring) :
  NoDup sel -> In t sel ->
  List.length (filter (fun id => negb (eqb id t)) sel) = pred (List.length sel).
Proof.
  induction 1 as [|x l Hx Hn IH]; simpl; [contradiction|].
  intros [->|Hin].
  - rewrite eqb_refl. simpl.
    assert (E : filter (fun id => negb (eqb id t)) l = l).
    { clear IH Hn. induction l as [|y l IHl]; simpl; [reflexivity|].
      destruct (eqb y t) eqn:Ey.
      - apply eqb_eq in Ey. subst. exfalso. apply Hx. now left.
      - simpl. f_equal. apply IHl. intros H. apply Hx. now right. }
    now rewrite E.
  - destruct (eqb x t) eqn:Ex.
    + apply eqb_eq in Ex. subst. contradiction.
    + simpl. rewrite (IH Hin). destruct l; [contradiction | reflexivity].
Qed.

Section MoreTaskCollection.

Variable getTime : jsstring -> number.
Variable localeCompare : jsstring -> jsstring -> Z.
Variable api_tasks : Oracle (list TasksList.Task).
Variable api_task : Oracle unit.

Local Abbreviation step :=
  (TasksList.step getTime localeCompare api_tasks api_task).
Local Abbreviation run :=
  (TasksList.run getTime localeCompare api_tasks api_task).
Local Abbreviation mount :=
  (TasksList.mount getTime localeCompare api_tasks).
Local Abbreviation compareTasks := (TasksList.compareTasks getTime localeCompare).
Local Abbreviation dispatch := (TasksList.dispatch getTime localeCompare).

Lemma handleDeleteTask_refreshed (taskId : jsstring) (w : World TasksList.State) :
  refreshed (state w)
    (state (exec (TasksList.handleDeleteTask api_tasks api_task taskId) w)).
Proof.
  unfold exec at 1. rewrite handleDeleteTask_run. simpl snd.
  destruct (delete_succeeds _ _ _).
  - match goal with
    | |- context [exec (TasksList.fetchTasks api_tasks) ?w0] =>
        pose proof (fetchTasks_refreshed api_tasks w0) as H
    end.
    exact H.
  - unfold refreshed. simpl. split; [reflexivity|]. left. now repeat split.
Qed.

Lemma handler_refreshed (a : TasksList.Action) (w : World TasksList.State) :
  (forall option, a <> TasksList.HandleSortClick option) ->
  refreshed (state w) (state (exec (TasksList.handler api_tasks api_task a) w)).
Proof.
  intros Hn. destruct a; simpl TasksList.handler.
  - destruct w. unfold refreshed. simpl. split; [reflexivity|]. left. now repeat split.
  - destruct w. unfold refreshed. simpl. split; [reflexivity|]. left. now repeat split.
  - destruct w. unfold refreshed. simpl. split; [reflexivity|]. left. now repeat split.
  - destruct w. unfold refreshed. simpl. split; [reflexivity|]. left. now repeat split.
  - destruct w. unfold refreshed. simpl. split; [reflexivity|]. left. now repeat split.
  - destruct w. unfold refreshed. simpl. split; [reflexivity|]. left. now repeat split.
  - apply deleteSelectedTasks_refreshed.
  - now contradiction (Hn option).
  - apply handleDeleteTask_refreshed.
  - apply fetchTasks_refreshed.
Qed.

Lemma dispatch_shows_original (h : M TasksList.State unit) (w : World TasksList.State) :
  refreshed (state w) (state (exec h w)) ->
  shows_original (state w) ->
  shows_original (state (dispatch h w)).
Proof.
  intros [Hs [[Ht [Ho Hr]]|[Ht Hr]]] [Hp Hn]; unfold shows_original.
  - rewrite (dispatch_same_deps getTime localeCompare h w Hs Hr).
    rewrite Ht, Ho, Hs. now split.
  - unfold TasksList.dispatch, TasksList.depsChanged. rewrite Hr.
    assert (E : (TasksList.originalOrderRef (state w)
                 =? S (TasksList.originalOrderRef (state w)))%nat = false)
      by (apply Nat.eqb_neq; lia).
    rewrite E, orb_true_r.
    assert (R : exec (TasksList.sortEffect getTime localeCompare) (exec h w)
                = snd (TasksList.sortEffect getTime localeCompare (exec h w)))
      by reflexivity.
    rewrite R, sortEffect_run. simpl.
    destruct (TasksList.currentSort (state (exec h w))).
    + split; [|discriminate]. rewrite sort_perm. now rewrite Ht.
    + now split.
Qed.

Lemma step_shows_original (w : World TasksList.State) (a : TasksList.Action) :
  shows_original (state w) -> shows_original (state (step w a)).
Proof.
  intros H.
  assert (D : (exists option, a = TasksList.HandleSortClick option)
              \/ forall option, a <> TasksList.HandleSortClick option).
  { destruct a; try (right; discriminate). left. now eexists. }
  destruct D as [[option ->]|Hn].
  - rewrite step_sort_click. destruct H as [Hp _].
    destruct (TasksList.sameSort _ _); unfold shows_original; simpl.
    + now split.
    + split; [|discriminate]. now rewrite sort_perm.
  - unfold TasksList.step. apply dispatch_shows_original; [|exact H].
    now apply handler_refreshed.
Qed.

(** X8.  From mounting on, whatever is clicked and whatever the network
    answers: the list on display is a rearrangement of the retained
    original order, and it is that order itself whenever no sort key is
    active. *)
Theorem mounted_list_shows_original
    (initialTasks : list TasksList.Task) (actions : list TasksList.Action) :
  shows_original (state (run (mount initialTasks) actions)).
Proof.
  assert (Hrun : forall acts w, shows_original (state w) ->
                                shows_original (state (run w acts))).
  { induction acts as [|a acts IH]; intros w Hw; [exact Hw|].
    unfold TasksList.run in *. simpl. apply IH. now apply step_shows_original. }
  apply Hrun. unfold TasksList.mount.
  apply dispatch_shows_original; [apply fetchTasks_refreshed|].
  unfold shows_original, exec. rewrite sortEffect_run. simpl. now split.
Qed.

(** X9.  A fetch that succeeds stores the fetched array as the original
    order and shows it sorted by the active key, or as it is when no key is
    active; it leaves the sort key and the selection alone and shows no
    toast. *)
Theorem fetch_applies_active_sort
    (w : World TasksList.State) (data : list TasksList.Task) :
  api_tasks (requests (log w)) (GET TasksList.url_tasks)
  = Responds (mkResponse true (Some data)) ->
  let w' := step w TasksList.FetchTasks in
  TasksList.originalOrder (state w') = data
  /\ TasksList.tasks (state w')
     = match TasksList.currentSort (state w) with
       | Some option => Js.sort (compareTasks option) data
       | None => data
       end
  /\ TasksList.currentSort (state w') = TasksList.currentSort (state w)
  /\ TasksList.selectedTasks (state w') = TasksList.selectedTasks (state w)
  /\ TasksList.toast (state w') = TasksList.toast (state w)
  /\ log w' = log w ++ [Requested (GET TasksList.url_tasks)].
Proof.
  intros Hg. cbv zeta.
  assert (E : exec (TasksList.fetchTasks api_tasks) w
              = mkWorld (TasksList.setOriginalOrder data
                           (TasksList.setTasks data (state w)))
                        (log w ++ [Requested (GET TasksList.url_tasks)])).
  { unfold exec. rewrite fetchTasks_run, Hg. reflexivity. }
  unfold TasksList.step, TasksList.dispatch. simpl TasksList.handler.
  rewrite E. unfold TasksList.depsChanged. simpl.
  assert (N : (TasksList.originalOrderRef (state w)
               =? S (TasksList.originalOrderRef (state w)))%nat = false)
    by (apply Nat.eqb_neq; lia).
  rewrite N, orb_true_r.
  match goal with
  | |- context [exec (TasksList.sortEffect getTime localeCompare) ?w0] =>
      assert (R : exec (TasksList.sortEffect getTime localeCompare) w0
                  = snd (TasksList.sortEffect getTime localeCompare w0))
        by reflexivity;
      rewrite R, sortEffect_run
  end.
  simpl. destruct (TasksList.currentSort (state w)); now repeat split.
Qed.

(** X10.  Mounting makes one request.  When it fails the list is empty and
    the toast says so; when it succeeds the list is the fetched array.
    Either way the [initialTasks] the component was given are not shown. *)
Theorem mount_shows_fetched_tasks (initialTasks : list TasksList.Task) :
  requests (log (mount initialTasks)) = [GET TasksList.url_tasks]
  /\ TasksList.selectedTasks (state (mount initialTasks)) = []
  /\ TasksList.currentSort (state (mount initialTasks)) = None
  /\ (fetch_fails api_tasks [] = true ->
       TasksList.tasks (state (mount initialTasks)) = []
       /\ TasksList.originalOrder (state (mount initialTasks)) = []
       /\ TasksList.toast (state (mount initialTasks)) = Some fetch_failed_toast)
  /\ (forall data,
        api_tasks [] (GET TasksList.url_tasks)
        = Responds (mkResponse true (Some data)) ->
        TasksList.tasks (state (mount initialTasks)) = data
        /\ TasksList.originalOrder (state (mount initialTasks)) = data
        /\ TasksList.toast (state (mount initialTasks)) = None).
Proof.
  unfold TasksList.mount, TasksList.dispatch, fetch_fails.
  unfold exec. rewrite sortEffect_run. simpl.
  rewrite fetchTasks_run. simpl.
  destruct (api_tasks [] (GET TasksList.url_tasks)) as [|r];
    [|destruct r as [o j]; destruct o; [destruct j as [data|]|]];
    simpl; unfold TasksList.depsChanged; simpl;
    rewrite ?sortEffect_run; simpl;
    repeat split; try discriminate; try reflexivity;
    intros; try discriminate.
  all: match goal with H : Responds _ = Responds _ |- _ => now inversion H end.
Qed.

Lemma step_local (w : World TasksList.State) (a : TasksList.Action) :
  is_local a = true ->
  (forall option, a <> TasksList.HandleSortClick option) ->
  step w a = exec (TasksList.handler api_tasks api_task a) w.
Proof.
  intros Hl Hn. unfold TasksList.step.
  destruct a; try discriminate; simpl TasksList.handler;
    try (apply dispatch_same_deps; now destruct w).
  now contradiction (Hn option).
Qed.

(** X11.  The controls that delete nothing (view toggle, checkboxes,
    select-all, cancel, opening and closing the modal, sort chips) make no
    request, log nothing and show no toast, and they leave the retained
    original order as it is. *)
Theorem local_actions_stay_local (w : World TasksList.State) (a : TasksList.Action) :
  is_local a = true ->
  log (step w a) = log w
  /\ TasksList.originalOrder (state (step w a)) = TasksList.originalOrder (state w)
  /\ TasksList.toast (state (step w a)) = TasksList.toast (state w).
Proof.
  intros Hl.
  assert (D : (exists option, a = TasksList.HandleSortClick option)
              \/ forall option, a <> TasksList.HandleSortClick option).
  { destruct a; try (right; discriminate). left. now eexists. }
  destruct D as [[option ->]|Hn].
  - rewrite step_sort_click. destruct (TasksList.sameSort _ _); now repeat split.
  - rewrite (step_local w a Hl Hn).
    destruct a; try discriminate; try (now contradiction (Hn option));
      destruct w; simpl; now repeat split.
Qed.

(** X12.  A checkbox flips the membership of its own id in the selection
    and of no other id; on a selection without repeats it leaves no
    repeats and moves the count shown in the selection bar by exactly
    one. *)
Theorem toggle_selection_flips_one (w : World TasksList.State) (taskId : jsstring) :
  let sel := TasksList.selectedTasks (state w) in
  let sel' :=
    TasksList.selectedTasks (state (step w (TasksList.ToggleTaskSelection taskId))) in
  includes sel' taskId = negb (includes sel taskId)
  /\ (forall other, other <> taskId -> includes sel' other = includes sel other)
  /\ (NoDup sel ->
       NoDup sel'
       /\ List.length sel'
          = if includes sel taskId then pred (List.length sel)
            else S (List.length sel)).
Proof.
  cbv zeta.
  rewrite (step_local w (TasksList.ToggleTaskSelection taskId) eq_refl)
    by discriminate.
  destruct w as [s l]. simpl.
  destruct (includes (TasksList.selectedTasks s) taskId) eqn:E; simpl.
  - repeat apply conj.
    + apply not_true_is_false. rewrite includes_In, filter_In.
      intros [_ H]. now rewrite eqb_refl in H.
    + intros other Ho. apply bool_eq_by_true.
      rewrite !includes_In, filter_In. split; [tauto|]. intros H. split; [exact H|].
      apply negb_true_iff. now apply eqb_neq.
    + intros Hnd. split; [now apply NoDup_filter|].
      apply length_filter_out; [exact Hnd | now apply includes_In].
  - repeat apply conj.
    + apply includes_In, in_or_app. right. now left.
    + intros other Ho. apply bool_eq_by_true.
      rewrite !includes_In, in_app_iff. simpl. intuition congruence.
    + intros Hnd. split.
      * apply NoDup_app; [exact Hnd | repeat constructor; auto |].
        intros x Hx [<-|[]]. apply includes_In in Hx. congruence.
      * rewrite length_app. simpl. lia.
Qed.

(** X13.  A task's own delete button.  When the delete fails, nothing is
    fetched and only the toast changes.  When the delete succeeds and the
    re-fetch then fails, the list still shows what it showed (the deleted
    task included) and the toast left on the page is the one of the failed
    fetch, which replaced the one of the successful delete. *)
Theorem single_delete_outcomes (w : World TasksList.State) (taskId : jsstring) :
  let w' := step w (TasksList.HandleDeleteTask taskId) in
  let request := DELETE (TasksList.url_task taskId) in
  (delete_succeeds api_task (requests (log w)) taskId = false ->
     state w' = TasksList.setToast (Some not_deleted_one_toast) (state w)
     /\ requests (log w') = requests (log w) ++ [request]
     /\ toasts (log w') = toasts (log w) ++ [not_deleted_one_toast])
  /\ (delete_succeeds api_task (requests (log w)) taskId = true ->
      fetch_fails api_tasks (requests (log w) ++ [request]) = true ->
      state w' = TasksList.setToast (Some fetch_failed_toast) (state w)
      /\ requests (log w') = requests (log w) ++ [request; GET TasksList.url_tasks]
      /\ toasts (log w')
         = toasts (log w) ++ [deleted_one_toast; fetch_failed_toast]).
Proof.
  cbv zeta. unfold TasksList.step. simpl TasksList.handler. split.
  - intros Hd.
    assert (E : exists l',
               exec (TasksList.handleDeleteTask api_tasks api_task taskId) w
               = mkWorld (TasksList.setToast (Some not_deleted_one_toast) (state w))
                         (log w ++ l')
               /\ requests l' = [DELETE (TasksList.url_task taskId)]
               /\ toasts l' = [not_deleted_one_toast]).
    { unfold exec. rewrite handleDeleteTask_run, Hd. simpl snd.
      rewrite <- !app_assoc. eexists. split; [reflexivity|]. now split. }
    destruct E as [l' [E [Hr Ht]]].
    rewrite dispatch_same_deps by (rewrite E; now destruct w).
    rewrite E. simpl. rewrite requests_app, toasts_app, Hr, Ht. now repeat split.
  - intros Hd Hf.
    assert (E : exists l',
               exec (TasksList.handleDeleteTask api_tasks api_task taskId) w
               = mkWorld (TasksList.setToast (Some fetch_failed_toast) (state w))
                         (log w ++ l')
               /\ requests l'
                  = [DELETE (TasksList.url_task taskId); GET TasksList.url_tasks]
               /\ toasts l' = [deleted_one_toast; fetch_failed_toast]).
    { unfold exec at 1. rewrite handleDeleteTask_run, Hd. simpl snd.
      unfold exec. rewrite fetchTasks_run. simpl.
      rewrite !requests_app. simpl. rewrite app_nil_r.
      unfold fetch_fails in Hf.
      destruct (api_tasks _ _) as [|r]; [|destruct (ok r); [destruct (json r)|]];
        simpl in Hf; try discriminate;
        rewrite <- !app_assoc; eexists; (split; [reflexivity|]); now split. }
    destruct E as [l' [E [Hr Ht]]].
    rewrite dispatch_same_deps by (rewrite E; now destruct w).
    rewrite E. simpl. rewrite requests_app, toasts_app, Hr, Ht. now repeat split.
Qed.

(** X14.  Opening the confirmation and closing it again (either Cancel or
    the cross) changes nothing at all: no request, the same selection, the
    same list. *)
Theorem open_then_close_modal_changes_nothing (w : World TasksList.State) :
  TasksList.isDeleteModalOpen (state w) = false ->
  TasksList.tasksToDelete (state w) = [] ->
  run w [TasksList.OpenDeleteModal; TasksList.CloseDeleteModal] = w.
Proof.
  intros Hm Hp. unfold TasksList.run. simpl fold_left.
  rewrite step_open_modal.
  rewrite (step_local _ TasksList.CloseDeleteModal eq_refl) by discriminate.
  destruct w as [[t v sel m p to cs oo r] l]. simpl in *. subst. reflexivity.
Qed.

(** X15.  Select-all, then the delete button, then Delete in the modal:
    one delete request goes out for every task on display, in the order
    of display, followed by one request for the collection. *)
Theorem select_all_then_delete_sends_all (w : World TasksList.State) :
  requests (log (run w [TasksList.SelectAllTasks; TasksList.OpenDeleteModal;
                        TasksList.DeleteSelectedTasks]))
  = requests (log w) ++ delete_requests (TasksList.displayed (state w))
      ++ [GET TasksList.url_tasks].
Proof.
  unfold TasksList.run. simpl fold_left.
  rewrite (step_local w TasksList.SelectAllTasks eq_refl) by discriminate.
  rewrite step_open_modal.
  unfold TasksList.step at 1. simpl TasksList.handler.
  match goal with
  | |- context [TasksList.dispatch _ _ ?h ?w0] =>
      destruct (dispatch_run getTime localeCompare h w0) as [El _];
      destruct (deleteSelectedTasks_run api_tasks api_task w0) as [_ [_ [Hr _]]]
  end.
  rewrite El, Hr. destruct w as [s l]. reflexivity.
Qed.

End MoreTaskCollection.

(* ================================================================= *)
(** ** More of the Dashboard/Creation View *)

Lemma trimStart_suffix (s : jsstring) : exists p, s = p ++ trimStart s.
Proof.
  induction s as [|c s [p IH]]; simpl; [now exists []|].
  destruct (isWhiteSpace c).
  - exists (c :: p). simpl. now f_equal.
  - now exists [].
Qed.

Lemma rev_head_last (s : jsstring) (d : N) :
  s <> [] -> rev s = last s d :: rev (removelast s).
Proof.
  intros H. rewrite (app_removelast_last d H) at 1.
  now rewrite rev_app_distr.
Qed.

(** What [trim] returns has no white space at either end, and [trim]
    leaves such a string as it is. *)
Lemma trim_trimmed (s : jsstring) : trimmed (trim s) = true.
Proof.
  unfold trim, trimEnd.
  pose proof (trimStart_head s) as Hx.
  destruct (trimStart_suffix (rev (trimStart s))) as [p Hp].
  pose proof (trimStart_head (rev (trimStart s))) as Hy.
  destruct (trimStart (rev (trimStart s))) as [|c r] eqn:Ey; [reflexivity|].
  assert (Hs : trimStart s = rev (c :: r) ++ rev p).
  { rewrite <- rev_app_distr, <- Hp. now rewrite rev_involutive. }
  assert (Hl : forall d, last (rev (c :: r)) d = c).
  { intros d. simpl. apply last_last. }
  destruct (rev (c :: r)) as [|h t] eqn:Er.
  { simpl in Er. symmetry in Er. now apply app_cons_not_nil in Er. }
  rewrite Hs in Hx. simpl in Hx. unfold trimmed.
  now rewrite Hl, Hx, Hy.
Qed.

Lemma trim_fixed (s : jsstring) : trimmed s = true -> trim s = s.
Proof.
  destruct s as [|c s]; [reflexivity|]. unfold trimmed. intros H.
  apply andb_true_iff in H. destruct H as [Hc Hl].
  apply negb_true_iff in Hc, Hl.
  assert (Hfix : forall h t, isWhiteSpace h = false -> trimStart (h :: t) = h :: t).
  { intros h t Hh. simpl. now rewrite Hh. }
  unfold trim, trimEnd. rewrite (Hfix c s Hc).
  assert (E : trimStart (rev (c :: s)) = rev (c :: s)).
  { rewrite (rev_head_last (c :: s) c) by discriminate. now apply Hfix. }
  rewrite E. apply rev_involutive.
Qed.

Section MoreDashboard.

Variable api_tasks : Oracle (list Dashboard.Task).
Variable api_create : Oracle Dashboard.ErrorData.

Local Abbreviation handleSubmit := (Dashboard.handleSubmit api_tasks api_create).

Lemma submit_requests (w : World Dashboard.State) :
  forallb isWhiteSpace (Dashboard.taskTitle (state w)) = false ->
  exists rest,
    requests (log (exec handleSubmit w))
    = requests (log w)
        ++ POST Dashboard.url_tasks (Dashboard.creation_body (state w)) :: rest
    /\ forall url body, ~ In (POST url body) rest.
Proof.
  intros H. unfold exec. rewrite (submit_run api_tasks api_create w H).
  cbv zeta. simpl snd.
  destruct (api_create _ _) as [|r].
  - exists []. simpl. rewrite !requests_app. simpl. rewrite !app_nil_r.
    split; [reflexivity | auto].
  - destruct (ok r).
    + exists [GET Dashboard.url_tasks].
      match goal with
      | |- context [exec (Dashboard.fetchTasks api_tasks) ?w0] =>
          destruct (dashboard_fetchTasks_frame api_tasks w0) as [_ [_ [_ [Hr _]]]]
      end.
      rewrite Hr. simpl. rewrite !requests_app. simpl.
      rewrite !app_nil_r, <- app_assoc. split; [reflexivity|].
      intros url body [Hin|[]]. discriminate.
    + exists [].
      destruct (json r) as [[|m]|]; simpl; rewrite !requests_app; simpl;
        rewrite !app_nil_r; (split; [reflexivity | auto]).
Qed.

(** X16.  Whatever the form holds, a creation request that goes out has a
    title that is not empty and has no white space at either end, a
    description and tags with no white space at either end, and the due
    date, priority and status exactly as the form has them. *)
Theorem creation_request_is_trimmed (w : World Dashboard.State) :
  exists new,
    requests (log (exec handleSubmit w)) = requests (log w) ++ new
    /\ forall url body,
         In (POST url body) new ->
         url = lit "/api/tasks"
         /\ truthy (field "title" body) = true
         /\ trimmed (field "title" body) = true
         /\ trimmed (field "description" body) = true
         /\ trimmed (field "tags" body) = true
         /\ field "dueDate" body = Dashboard.dueDate (state w)
         /\ field "priority" body = Dashboard.priority (state w)
         /\ field "status" body = Dashboard.status (state w).
Proof.
  destruct (forallb isWhiteSpace (Dashboard.taskTitle (state w))) eqn:E.
  - exists []. unfold exec. rewrite (blank_title_run api_tasks api_create w E).
    simpl. rewrite requests_app. simpl. split; [reflexivity|]. intros ? ? [].
  - destruct (submit_requests w E) as [rest [Hr Hn]].
    eexists. split; [exact Hr|].
    intros url body [Hin|Hin]; [|now apply Hn in Hin].
    inversion Hin; subst. unfold field, Dashboard.creation_body. simpl.
    repeat split; try apply trim_trimmed.
    destruct (truthy _) eqn:Et; [reflexivity|].
    apply trim_blank in Et. congruence.
Qed.

Lemma creation_body_of_form (s s' : Dashboard.State) :
  Dashboard.form s' = Dashboard.form s ->
  Dashboard.creation_body s' = Dashboard.creation_body s
  /\ Dashboard.taskTitle s' = Dashboard.taskTitle s.
Proof.
  unfold Dashboard.form, Dashboard.creation_body. intros H. inversion H.
  split; congruence.
Qed.

(** X17.  After a creation that failed, submitting again without touching
    the form sends the same request once more. *)
Theorem resubmit_after_failure_sends_same_request (w : World Dashboard.State) :
  forallb isWhiteSpace (Dashboard.taskTitle (state w)) = false ->
  created (api_create (requests (log w))
             (POST Dashboard.url_tasks (Dashboard.creation_body (state w))))
    = false ->
  let request := POST Dashboard.url_tasks (Dashboard.creation_body (state w)) in
  let failed := exec handleSubmit w in
  requests (log failed) = requests (log w) ++ [request]
  /\ exists rest,
       requests (log (exec handleSubmit failed))
       = requests (log w) ++ request :: request :: rest.
Proof.
  intros Hb Hc. cbv zeta.
  destruct (creation_refused api_tasks api_create w Hb Hc) as [Hf [Hr _]].
  destruct (creation_body_of_form _ _ Hf) as [Hbody Htitle].
  split; [exact Hr|].
  assert (Hb' : forallb isWhiteSpace
                  (Dashboard.taskTitle (state (exec handleSubmit w))) = false)
    by now rewrite Htitle.
  destruct (submit_requests _ Hb') as [rest [Hr' _]].
  exists rest. rewrite Hr', Hr, Hbody, <- app_assoc. reflexivity.
Qed.

(** X18.  After a creation that succeeded, submitting again at once is
    refused as a blank title: the form was reset, so nothing is sent and
    the toast asks for a title. *)
Theorem resubmit_after_success_is_refused (w : World Dashboard.State) :
  forallb isWhiteSpace (Dashboard.taskTitle (state w)) = false ->
  created (api_create (requests (log w))
             (POST Dashboard.url_tasks (Dashboard.creation_body (state w))))
    = true ->
  let added := exec handleSubmit w in
  let again := exec handleSubmit added in
  requests (log again) = requests (log added)
  /\ Dashboard.toast (state again) = Some title_required_toast
  /\ Dashboard.form (state again) = Dashboard.defaults.
Proof.
  intros Hb Hc. cbv zeta.
  assert (Hf : Dashboard.form (state (exec handleSubmit w)) = Dashboard.defaults).
  { unfold exec. rewrite (submit_run api_tasks api_create w Hb).
    cbv zeta. simpl snd. unfold created in Hc.
    destruct (api_create _ _) as [|r]; [discriminate|]. rewrite Hc.
    match goal with
    | |- context [exec (Dashboard.fetchTasks api_tasks) ?w0] =>
        destruct (dashboard_fetchTasks_frame api_tasks w0) as [Hfr _]
    end.
    rewrite Hfr. reflexivity. }
  assert (Ht : forallb isWhiteSpace
                 (Dashboard.taskTitle (state (exec handleSubmit w))) = true).
  { pose proof Hf as Hf'. unfold Dashboard.form, Dashboard.defaults in Hf'.
    injection Hf' as H1 _ _ _ _ _. rewrite H1. reflexivity. }
  set (added := exec handleSubmit w) in *.
  assert (E : exec handleSubmit added
              = mkWorld (Dashboard.setToast (Some title_required_toast) (state added))
                        (log added ++ [Toasted title_required_toast])).
  { unfold exec at 1. now rewrite (blank_title_run api_tasks api_create added Ht). }
  rewrite E. simpl. rewrite requests_app. simpl. rewrite app_nil_r.
  split; [reflexivity|]. split; [reflexivity | exact Hf].
Qed.


End MoreDashboard.

(* ================================================================= *)
(** ** The further statements on sample data *)

Lemma sorted_by_time_witness :
  forallb (fun t => isValidDate sample_getTime (TasksList.createdAt t))
          [task_old; task_new] = true
  /\ Js.sort (TasksList.compareTasks sample_getTime sample_localeCompare
                TasksList.byCreatedAt) [task_old; task_new]
     = [task_new; task_old]
  /\ Js.sort (TasksList.compareTasks sample_getTime sample_localeCompare
                TasksList.byUpdatedAt) [task_new; task_old]
     = [task_old; task_new]
  /\ due_dates_valid sample_getTime sample_db = true
  /\ StronglySorted
       (fun a b => dueTimeValue sample_getTime a >= dueTimeValue sample_getTime b)
       [task_jun; task_jan].
Proof.
  destruct (sorted_by_time_descending sample_getTime sample_localeCompare
              [task_old; task_new]) as [Hc [Hu _]].
  destruct (sorted_by_time_descending sample_getTime sample_localeCompare sample_db)
    as [_ [_ Hd]].
  pose proof (Hc eq_refl) as Sc. pose proof (Hu eq_refl) as Su.
  split; [reflexivity|]. split; [reflexivity|]. split; [reflexivity|].
  split; [reflexivity | exact (Hd eq_refl)].
Defined.

Lemma sorted_by_priority_witness :
  forallb (fun t => negb (names_inherited_property (TasksList.priority t)))
          [task_urgent; task_jan; task_jun; task_undated] = true
  /\ StronglySorted
       (fun a b => spec_priority_ordinal (TasksList.priority a)
                   >= spec_priority_ordinal (TasksList.priority b))
       [task_jun; task_jan; task_urgent; task_undated].
Proof.
  split; [reflexivity|].
  exact (sorted_by_priority_descending sample_getTime sample_localeCompare
           [task_urgent; task_jan; task_jun; task_undated] eq_refl).
Defined.


Lemma sorted_by_title_witness :
  collates sample_localeCompare
  /\ Sorted (fun a b => sample_localeCompare (TasksList.title a) (TasksList.title b)
                         <= 0)
            [task_jun; task_jan; task_undated].
Proof.
  split; [exact sample_localeCompare_collates|].
  exact (proj1 (sorted_by_title_ascending sample_getTime sample_localeCompare
                  sample_db sample_localeCompare_collates)).
Defined.

Lemma fetch_applies_active_sort_witness :
  let w := sample_run sample_mounted [TasksList.HandleSortClick TasksList.byTitle] in
  sample_api_tasks (requests (log w)) (GET TasksList.url_tasks)
  = Responds (mkResponse true (Some sample_db))
  /\ TasksList.tasks (state (sample_run w [TasksList.FetchTasks]))
     = [task_jun; task_jan; task_undated]
  /\ TasksList.originalOrder (state (sample_run w [TasksList.FetchTasks]))
     = [task_jan; task_jun; task_undated].
Proof.
  cbv zeta.
  destruct (fetch_applies_active_sort sample_getTime sample_localeCompare
              sample_api_tasks sample_api_task
              (sample_run sample_mounted
                 [TasksList.HandleSortClick TasksList.byTitle])
              sample_db eq_refl) as [Ho [Ht _]].
  split; [reflexivity|]. split; [exact Ht | exact Ho].
Defined.

Lemma mount_shows_fetched_witness :
  fetch_fails (@offline (list TasksList.Task)) [] = true
  /\ TasksList.tasks
       (state (TasksList.mount sample_getTime sample_localeCompare offline
                               [task_urgent])) = []
  /\ TasksList.tasks
       (state (TasksList.mount sample_getTime sample_localeCompare sample_api_tasks
                               [task_urgent])) = sample_db.
Proof.
  destruct (mount_shows_fetched_tasks sample_getTime sample_localeCompare offline
              [task_urgent]) as [_ [_ [_ [Hf _]]]].
  destruct (mount_shows_fetched_tasks sample_getTime sample_localeCompare
              sample_api_tasks [task_urgent]) as [_ [_ [_ [_ Hs]]]].
  destruct (Hf eq_refl) as [H1 _].
  destruct (Hs sample_db eq_refl) as [H2 _].
  split; [reflexivity|]. split; [exact H1 | exact H2].
Defined.

Lemma local_actions_witness :
  is_local (TasksList.HandleSortClick TasksList.byTitle) = true
  /\ log (sample_run sample_mounted [TasksList.HandleSortClick TasksList.byTitle])
     = log sample_mounted.
Proof.
  split; [reflexivity|].
  exact (proj1 (local_actions_stay_local sample_getTime sample_localeCompare
                  sample_api_tasks sample_api_task sample_mounted
                  (TasksList.HandleSortClick TasksList.byTitle) eq_refl)).
Defined.

Lemma toggle_selection_witness :
  let w := sample_run sample_mounted
             [TasksList.ToggleTaskSelection (lit "1");
              TasksList.ToggleTaskSelection (lit "2")] in
  NoDup (TasksList.selectedTasks (state w))
  /\ TasksList.selectedTasks (state w) = [lit "1"; lit "2"]
  /\ List.length
       (TasksList.selectedTasks
          (state (sample_run w [TasksList.ToggleTaskSelection (lit "1")]))) = 1%nat.
Proof.
  cbv zeta.
  assert (Hn : NoDup (TasksList.selectedTasks
                        (state (sample_run sample_mounted
                                  [TasksList.ToggleTaskSelection (lit "1");
                                   TasksList.ToggleTaskSelection (lit "2")])))).
  { change (NoDup [lit "1"; lit "2"]).
    constructor; [|constructor; [|constructor]]; simpl; intuition discriminate. }
  destruct (toggle_selection_flips_one sample_getTime sample_localeCompare
              sample_api_tasks sample_api_task
              (sample_run sample_mounted
                 [TasksList.ToggleTaskSelection (lit "1");
                  TasksList.ToggleTaskSelection (lit "2")])
              (lit "1")) as [_ [_ H]].
  destruct (H Hn) as [_ Hl].
  split; [exact Hn|]. split; [reflexivity | exact Hl].
Defined.

Lemma single_delete_outcomes_witness :
  delete_succeeds offline (requests (log sample_mounted)) (lit "1") = false
  /\ TasksList.tasks
       (state (TasksList.step sample_getTime sample_localeCompare offline offline
                 sample_mounted (TasksList.HandleDeleteTask (lit "1"))))
     = sample_db
  /\ delete_succeeds sample_api_task (requests (log sample_mounted)) (lit "1") = true
  /\ fetch_fails (@offline (list TasksList.Task))
       (requests (log sample_mounted) ++ [DELETE (TasksList.url_task (lit "1"))])
     = true
  /\ state (TasksList.step sample_getTime sample_localeCompare offline
              sample_api_task sample_mounted (TasksList.HandleDeleteTask (lit "1")))
     = TasksList.setToast (Some fetch_failed_toast) (state sample_mounted).
Proof.
  destruct (single_delete_outcomes sample_getTime sample_localeCompare offline offline
              sample_mounted (lit "1")) as [Hf _].
  destruct (single_delete_outcomes sample_getTime sample_localeCompare offline
              sample_api_task sample_mounted (lit "1")) as [_ Hs].
  destruct (Hf eq_refl) as [H1 _].
  destruct (Hs eq_refl eq_refl) as [H2 _].
  split; [reflexivity|]. split; [now rewrite H1|].
  split; [reflexivity|]. split; [reflexivity | exact H2].
Defined.

Lemma open_then_close_witness :
  TasksList.isDeleteModalOpen (state sample_after_single_delete) = false
  /\ TasksList.tasksToDelete (state sample_after_single_delete) = []
  /\ sample_run sample_after_single_delete
       [TasksList.OpenDeleteModal; TasksList.CloseDeleteModal]
     = sample_after_single_delete.
Proof.
  split; [reflexivity|]. split; [reflexivity|].
  exact (open_then_close_modal_changes_nothing sample_getTime sample_localeCompare
           sample_api_tasks sample_api_task sample_after_single_delete
           eq_refl eq_refl).
Defined.

Lemma single_delete_keeps_selection_witness :
  let w := sample_run sample_mounted [TasksList.ToggleTaskSelection (lit "1")] in
  delete_succeeds sample_api_task (requests (log w)) (lit "1") = true
  /\ In (lit "1") (TasksList.selectedTasks (state w))
  /\ ~ In (lit "1") (map TasksList.id [task_jun; task_undated])
  /\ ~ incl (TasksList.selectedTasks
               (state (sample_run w [TasksList.HandleDeleteTask (lit "1")])))
            (TasksList.displayed
               (state (sample_run w [TasksList.HandleDeleteTask (lit "1")]))).
Proof.
  cbv zeta.
  assert (Hin : In (lit "1")
                   (TasksList.selectedTasks
                      (state (sample_run sample_mounted
                                [TasksList.ToggleTaskSelection (lit "1")]))))
    by (left; reflexivity).
  assert (Hout : ~ In (lit "1") (map TasksList.id [task_jun; task_undated]))
    by (simpl; intuition discriminate).
  destruct (single_delete_keeps_selection sample_getTime sample_localeCompare
              sample_api_tasks sample_api_task
              (sample_run sample_mounted [TasksList.ToggleTaskSelection (lit "1")])
              (lit "1") [task_jun; task_undated] eq_refl eq_refl) as [_ [_ H]].
  split; [reflexivity|]. split; [exact Hin|]. split; [exact Hout|].
  exact (H (lit "1") Hin Hout).
Defined.

Lemma resubmit_after_failure_witness :
  forallb isWhiteSpace (Dashboard.taskTitle (state dashboard_filled)) = false
  /\ requests (log (exec (Dashboard.handleSubmit offline refusing)
                         (exec (Dashboard.handleSubmit offline refusing)
                               dashboard_filled)))
     = [POST Dashboard.url_tasks (Dashboard.creation_body (state dashboard_filled));
        POST Dashboard.url_tasks (Dashboard.creation_body (state dashboard_filled))].
Proof.
  destruct (resubmit_after_failure_sends_same_request offline refusing
              dashboard_filled eq_refl eq_refl) as [_ [rest H]].
  split; reflexivity.
Defined.

Lemma resubmit_after_success_witness :
  created (accepting [] (POST Dashboard.url_tasks
                           (Dashboard.creation_body (state dashboard_filled))))
    = true
  /\ requests (log (exec (Dashboard.handleSubmit listing_nothing accepting)
                         (exec (Dashboard.handleSubmit listing_nothing accepting)
                               dashboard_filled)))
     = requests (log (exec (Dashboard.handleSubmit listing_nothing accepting)
                           dashboard_filled))
  /\ Dashboard.toast
       (state (exec (Dashboard.handleSubmit listing_nothing accepting)
                    (exec (Dashboard.handleSubmit listing_nothing accepting)
                          dashboard_filled)))
     = Some title_required_toast.
Proof.
  destruct (resubmit_after_success_is_refused listing_nothing accepting
              dashboard_filled eq_refl eq_refl) as [Hr [Ht _]].
  split; [reflexivity|]. split; [exact Hr | exact Ht].
Defined.

